(** * MediTrack: appointment booking, status workflow, prescription and
    feedback gates, dashboard aggregation and registration.

    Shallow embedding of
    - src/unnamed/part_000 (PatientDashboard, BookAppointment),
    - src/project/src/pages/DoctorDashboard.tsx,
    - src/project/src/contexts/AuthContext.tsx.

    The Firestore collection [appointments] is a map from document id to
    document ([gmap string appointment]); a live snapshot of a query is the
    list of the matching documents. *)

From stdpp Require Import base gmap strings list fin_maps.
From Stdlib Require Import String Ascii ZArith QArith.

(* ------------------------------------------------------------------ *)
(** ** Data model (interface [Appointment]) *)

Inductive status := Pending | Confirmed | InProgress | Completed | Cancelled.

#[global] Instance status_eq_dec : EqDecision status.
Proof. solve_decision. Defined.

Definition status_eqb (s t : status) : bool := bool_decide (s = t).

Record prescription := {
  medicine : string;
  dosage : string;
  frequency : string;
  instructions : string
}.

Record feedback := {
  rating : Z;
  comment : string
}.

Record appointment := {
  doctorId : string;
  doctorName : string;
  patientId : string;
  patientName : string;
  date : string;
  time : string;
  status_of : status;
  note : string;
  prescription_of : option prescription;
  feedback_of : option feedback;
  createdAt : Z
}.

(** The [appointments] collection, keyed by document id. *)
Abbreviation store := (gmap string appointment).

(** Firestore [updateDoc(doc(db, 'appointments', id), fields)]: merges the
    fields into an existing document; it fails when the document does not
    exist. *)
Definition updateDoc (id : string) (f : appointment -> appointment) (db : store)
  : option store :=
  match db !! id with
  | Some a => Some (<[id := f a]> db)
  | None => None
  end.

Definition set_status (s : status) (a : appointment) : appointment :=
  {| doctorId := doctorId a; doctorName := doctorName a; patientId := patientId a;
     patientName := patientName a; date := date a; time := time a;
     status_of := s; note := note a; prescription_of := prescription_of a;
     feedback_of := feedback_of a; createdAt := createdAt a |}.

Definition set_completed_with (p : prescription) (a : appointment) : appointment :=
  {| doctorId := doctorId a; doctorName := doctorName a; patientId := patientId a;
     patientName := patientName a; date := date a; time := time a;
     status_of := Completed; note := note a; prescription_of := Some p;
     feedback_of := feedback_of a; createdAt := createdAt a |}.

Definition set_feedback (fb : feedback) (a : appointment) : appointment :=
  {| doctorId := doctorId a; doctorName := doctorName a; patientId := patientId a;
     patientName := patientName a; date := date a; time := time a;
     status_of := status_of a; note := note a; prescription_of := prescription_of a;
     feedback_of := Some fb; createdAt := createdAt a |}.

(** The documents of the collection, as a snapshot delivers them. *)
Definition docs (db : store) : list appointment := (map_to_list db).*2.

(* ------------------------------------------------------------------ *)
(** ** JavaScript string helpers *)

(** [a < b] on strings: lexicographic order on character codes. *)
Fixpoint str_ltb (a b : string) : bool :=
  match a, b with
  | EmptyString, EmptyString => false
  | EmptyString, String _ _ => true
  | String _ _, EmptyString => false
  | String c1 r1, String c2 r2 =>
      if Nat.ltb (nat_of_ascii c1) (nat_of_ascii c2) then true
      else if Nat.eqb (nat_of_ascii c1) (nat_of_ascii c2) then str_ltb r1 r2
      else false
  end.

(** White space removed by [String.prototype.trim] (ASCII part). *)
Definition is_ws (c : ascii) : bool :=
  let n := nat_of_ascii c in
  Nat.eqb n 32 || Nat.eqb n 9 || Nat.eqb n 10 || Nat.eqb n 11 ||
  Nat.eqb n 12 || Nat.eqb n 13.

Fixpoint trim_start (s : string) : string :=
  match s with
  | EmptyString => EmptyString
  | String c r => if is_ws c then trim_start r else s
  end.

Fixpoint str_rev (s : string) : string :=
  match s with
  | EmptyString => EmptyString
  | String c r => (str_rev r ++ String c EmptyString)%string
  end.

Definition trim (s : string) : string := str_rev (trim_start (str_rev (trim_start s))).

(** [s.endsWith(suffix)] *)
Definition endsWith (s suffix : string) : bool :=
  Nat.leb (String.length suffix) (String.length s) &&
  String.eqb (substring (String.length s - String.length suffix)
                        (String.length suffix) s) suffix.

(** A falsy string in a JavaScript condition is the empty string. *)
Definition is_empty (s : string) : bool := String.eqb s "".

(* ------------------------------------------------------------------ *)
(** ** BookAppointment (src/unnamed/part_000, lines 351-469) *)

Inductive role := Doctor | Patient.

Record userProfile := {
  uid : string;
  email : string;
  role_of : role;
  firstName : string;
  lastName : string
}.

(** Entries of the [doctors] state, fetched from the [users] collection
    with [where('role', '==', 'doctor')]. *)
Record doctorEntry := {
  d_uid : string;
  d_firstName : string;
  d_lastName : string;
  d_email : string
}.

(** The messages [handleSubmit] reports through [setError]. *)
Inductive bookingError :=
  | DailyLimitMsg        (* 'You can only book a maximum of 2 appointments per day.' *)
  | MissingFieldsMsg     (* 'Please fill in all required fields.' *)
  | PastDateMsg          (* 'Please select a future date.' *)
  | BookingFailedMsg.    (* 'Failed to book appointment. Please try again.' *)

(** [todayAppointments]: the size of the live query
    [where('patientId', '==', uid), where('date', '==', today)]. *)
Definition todayAppointments (db : store) (patient today : string) : nat :=
  List.length (List.filter (fun a => String.eqb (patientId a) patient &&
                                String.eqb (date a) today) (docs db)).

(** The twelve entries of [timeSlots]; they only feed the time [<select>]. *)
Definition timeSlots : list string :=
  ["09:00"; "09:30"; "10:00"; "10:30"; "11:00"; "11:30";
   "14:00"; "14:30"; "15:00"; "15:30"; "16:00"; "16:30"]%string.

(** [handleSubmit]: on success, the document passed to [addDoc].
    [today] is [new Date().toISOString().split('T')[0]], [now] is
    [new Date()]. An unknown [selectedDoctor] makes
    [selectedDoctorData!.firstName] throw inside the [try] before [addDoc]
    is called; the [catch] reports the generic failure. *)
Definition handleSubmit (db : store) (doctors : list doctorEntry)
    (profile : userProfile) (today : string) (now : Z)
    (selectedDoctor date_in time_in note_in : string)
  : bookingError + appointment :=
  if Nat.leb 2 (todayAppointments db (uid profile) today) then inl DailyLimitMsg
  else if is_empty selectedDoctor || is_empty date_in || is_empty time_in
  then inl MissingFieldsMsg
  else if str_ltb date_in today then inl PastDateMsg
  else match List.find (fun d => String.eqb (d_uid d) selectedDoctor) doctors with
       | None => inl BookingFailedMsg
       | Some dd =>
           inr {| patientId := uid profile;
                  patientName := (firstName profile ++ " " ++ lastName profile)%string;
                  doctorId := selectedDoctor;
                  doctorName := (d_firstName dd ++ " " ++ d_lastName dd)%string;
                  date := date_in;
                  time := time_in;
                  note := trim note_in;
                  status_of := Pending;
                  prescription_of := None;
                  feedback_of := None;
                  createdAt := now |}
       end.

(** [addDoc] stores the document under a fresh generated id. *)
Definition book (db : store) (newId : string) (doctors : list doctorEntry)
    (profile : userProfile) (today : string) (now : Z)
    (selectedDoctor date_in time_in note_in : string)
  : bookingError + store :=
  match handleSubmit db doctors profile today now selectedDoctor date_in time_in note_in with
  | inl e => inl e
  | inr a => inr (<[newId := a]> db)
  end.

(** [new Date(ms).toISOString().split('T')[0]]: the UTC calendar date of
    the instant [ms] (milliseconds since 1970-01-01T00:00:00Z) as
    'YYYY-MM-DD', with the six-digit signed year outside 0..9999. Days are
    turned into a civil date by H. Hinnant's [civil_from_days]. *)
Definition civil_from_days (days : Z) : Z * Z * Z :=
  let z := (days + 719468)%Z in
  let era := (z / 146097)%Z in
  let doe := (z - era * 146097)%Z in
  let yoe := ((doe - doe / 1460 + doe / 36524 - doe / 146096) / 365)%Z in
  let doy := (doe - (365 * yoe + yoe / 4 - yoe / 100))%Z in
  let mp := ((5 * doy + 2) / 153)%Z in
  let d := (doy - (153 * mp + 2) / 5 + 1)%Z in
  let m := if Z.ltb mp 10 then (mp + 3)%Z else (mp - 9)%Z in
  ((yoe + era * 400 + (if Z.leb m 2 then 1 else 0))%Z, m, d).

(** The last [w] decimal digits of [n >= 0], zero-padded. *)
Fixpoint pad (w : nat) (n : Z) : string :=
  match w with
  | O => ""
  | S w' => (pad w' (n / 10) ++ String (ascii_of_nat (48 + Z.to_nat (n mod 10))) "")%string
  end.

Definition isoDate (ms : Z) : string :=
  let '(y, m, d) := civil_from_days (ms / 86400000) in
  let ys := if Z.leb 0 y && Z.leb y 9999 then pad 4 y
            else if Z.ltb y 0 then ("-" ++ pad 6 (- y))%string
            else ("+" ++ pad 6 y)%string in
  (ys ++ "-" ++ pad 2 m ++ "-" ++ pad 2 d)%string.

(** Submitting the booking form, lines 504-612. The submit button is
    disabled while the live count [todayAppointments] is 2 or more
    (line 608; [loading] only disables it while a submission is in
    flight); otherwise the browser's constraint validation blocks the
    submit unless the doctor [<select required>] holds one of its options
    other than the placeholder, i.e. a fetched doctor (lines 518-531), the
    date input holds a date not before its [min={today}] (lines 545-555)
    and the time [<select required>] one of the slots (lines 557-575).
    [None]: no submit event; otherwise the outcome of [handleSubmit].
    [renderMs] is the time of the render whose [today] the handler and
    the [min] attribute close over; [nowMs] is the time of the click,
    read by [createdAt: new Date()]. *)
Definition submitBookingForm (snap : store) (doctors : list doctorEntry)
    (profile : userProfile) (renderMs nowMs : Z) (selectedDoctor date_in time_in note_in : string)
  : option (bookingError + appointment) :=
  let today := isoDate renderMs in
  if Nat.leb 2 (todayAppointments snap (uid profile) today) then None
  else if existsb (fun dd => String.eqb (d_uid dd) selectedDoctor) doctors &&
          negb (is_empty date_in) && negb (str_ltb date_in today) &&
          existsb (String.eqb time_in) timeSlots
  then Some (handleSubmit snap doctors profile today nowMs selectedDoctor date_in time_in note_in)
  else None.

(* ------------------------------------------------------------------ *)
(** ** DoctorDashboard (src/project/src/pages/DoctorDashboard.tsx) *)

(** The messages the doctor's handlers report through [setError]. *)
Inductive doctorError :=
  | UpdateFailedMsg        (* 'Failed to update appointment status' *)
  | MissingMedicineMsg     (* 'Please enter medicine name' *)
  | PrescriptionFailedMsg. (* 'Failed to add prescription' *)

(** [updateAppointmentStatus(appointmentId, newStatus)], lines 72-84: one
    [updateDoc] writing [status: newStatus]. Its callers pass
    ['confirmed'] (Accept), ['cancelled'] (Decline) and ['in-progress']
    (Start). *)
Definition updateAppointmentStatus (id : string) (newStatus : status) (db : store)
  : doctorError + store :=
  match updateDoc id (set_status newStatus) db with
  | Some db' => inr db'
  | None => inl UpdateFailedMsg
  end.

(** [handlePrescriptionSubmit(appointmentId)], lines 86-112: one
    [updateDoc] writing [status: 'completed'] and [prescription]. *)
Definition handlePrescriptionSubmit (id : string) (prescriptionData : prescription)
    (db : store) : doctorError + store :=
  if is_empty (trim (medicine prescriptionData)) then inl MissingMedicineMsg
  else match updateDoc id (set_completed_with prescriptionData) db with
       | Some db' => inr db'
       | None => inl PrescriptionFailedMsg
       end.

Definition emptyPrescription : prescription :=
  {| medicine := ""; dosage := ""; frequency := ""; instructions := "" |}.

(** [apt.status] is one of [allowed] ([[...].includes(apt.status)]). *)
Definition status_in (allowed : list status) (a : appointment) : bool :=
  existsb (status_eqb (status_of a)) allowed.

(** Lines 125-134: the dashboard's derived lists and its average rating. *)
Definition pendingAppointments (l : list appointment) : list appointment :=
  List.filter (fun a => status_eqb (status_of a) Pending) l.

Definition activeAppointments (l : list appointment) : list appointment :=
  List.filter (status_in [Confirmed; InProgress]) l.

Definition completedAppointments (l : list appointment) : list appointment :=
  List.filter (fun a => status_eqb (status_of a) Completed) l.

Definition appointmentsWithFeedback (l : list appointment) : list appointment :=
  List.filter (fun a => match feedback_of a with Some _ => true | None => false end) l.

Definition feedback_rating (a : appointment) : Z :=
  match feedback_of a with Some fb => rating fb | None => 0 end.

(** [reduce((sum, apt) => sum + apt.feedback!.rating, 0)] *)
Definition ratingSum (l : list appointment) : Z :=
  fold_left (fun sum a => (sum + feedback_rating a)%Z) l 0%Z.

Definition averageRating (l : list appointment) : Q :=
  let w := appointmentsWithFeedback l in
  if Nat.ltb 0 (List.length w)
  then inject_Z (ratingSum w) / inject_Z (Z.of_nat (List.length w))
  else 0.

(** The doctor's live query [where('doctorId', '==', userProfile.uid)]. *)
Definition doctorAppointments (duid : string) (db : store) : list appointment :=
  List.filter (fun a => String.eqb (doctorId a) duid) (docs db).

(** The four stat cards: pending, active, completed, average rating. *)
Definition doctorStats (l : list appointment) : nat * nat * nat * Q :=
  (List.length (pendingAppointments l), List.length (activeAppointments l),
   List.length (completedAppointments l), averageRating l).

(** The card of document [id] is rendered in a list of the doctor's
    dashboard whose records have a status in [allowed]. *)
Definition shownToDoctor (duid : string) (db : store) (id : string)
    (allowed : list status) : bool :=
  match db !! id with
  | Some a => String.eqb (doctorId a) duid && status_in allowed a
  | None => false
  end.

(** The state of one open DoctorDashboard. *)
Record doctorSession := {
  ds_uid : string;
  selectedAppointment : option string;
  prescriptionData : prescription
}.

(** What the doctor can click or type. *)
Inductive doctorEvent :=
  | ClickAccept (id : string)            (* pending list, 'Accept' *)
  | ClickDecline (id : string)           (* pending list, 'Decline' *)
  | ClickStart (id : string)             (* active list, status confirmed *)
  | ClickAddPrescription (id : string)   (* active list, status in-progress *)
  | EditPrescription (pd : prescription) (* the form's inputs *)
  | ClickComplete (id : string)          (* 'Complete Appointment' in the form *)
  | ClickCancelForm.                     (* 'Cancel' in the form *)

(** A handler that reports an error leaves the store as it was. *)
Definition keep_store {E} (r : E + store) (db : store) : store :=
  match r with inr db' => db' | inl _ => db end.

Definition opt_str_eqb (o : option string) (id : string) : bool :=
  match o with Some s => String.eqb s id | None => false end.

(** One event on a DoctorDashboard whose snapshot is the current store;
    [None] when the event's control is not rendered. *)
Definition doctorStep (ds : doctorSession) (db : store) (ev : doctorEvent)
  : option (doctorSession * store) :=
  match ev with
  | ClickAccept id =>
      if shownToDoctor (ds_uid ds) db id [Pending]
      then Some (ds, keep_store (updateAppointmentStatus id Confirmed db) db) else None
  | ClickDecline id =>
      if shownToDoctor (ds_uid ds) db id [Pending]
      then Some (ds, keep_store (updateAppointmentStatus id Cancelled db) db) else None
  | ClickStart id =>
      if shownToDoctor (ds_uid ds) db id [Confirmed]
      then Some (ds, keep_store (updateAppointmentStatus id InProgress db) db) else None
  | ClickAddPrescription id =>
      if shownToDoctor (ds_uid ds) db id [InProgress]
      then Some ({| ds_uid := ds_uid ds; selectedAppointment := Some id;
                    prescriptionData := prescriptionData ds |}, db)
      else None
  | EditPrescription pd =>
      Some ({| ds_uid := ds_uid ds; selectedAppointment := selectedAppointment ds;
               prescriptionData := pd |}, db)
  | ClickComplete id =>
      (* the form is rendered on the card of the active list whose id is
         [selectedAppointment] *)
      if opt_str_eqb (selectedAppointment ds) id &&
         shownToDoctor (ds_uid ds) db id [Confirmed; InProgress]
      then match handlePrescriptionSubmit id (prescriptionData ds) db with
           | inr db' => Some ({| ds_uid := ds_uid ds; selectedAppointment := None;
                                 prescriptionData := emptyPrescription |}, db')
           | inl _ => Some (ds, db)
           end
      else None
  | ClickCancelForm =>
      Some ({| ds_uid := ds_uid ds; selectedAppointment := None;
               prescriptionData := prescriptionData ds |}, db)
  end.

(* ------------------------------------------------------------------ *)
(** ** PatientDashboard (src/unnamed/part_000, lines 1-350) *)

(** The patient's live query [where('patientId', '==', userProfile.uid)]. *)
Definition patientAppointments (puid : string) (db : store) : list appointment :=
  List.filter (fun a => String.eqb (patientId a) puid) (docs db).

(** Lines 106-111. *)
Definition upcomingAppointments (l : list appointment) : list appointment :=
  List.filter (status_in [Pending; Confirmed; InProgress]) l.

Definition pastAppointments (l : list appointment) : list appointment :=
  List.filter (status_in [Completed; Cancelled]) l.

(** The three stat cards, lines 131-164: 'Upcoming Appointments'
    ([upcomingAppointments.length]), 'Prescriptions'
    ([appointments.filter(apt => apt.prescription).length]) and
    'Completed Visits' ([pastAppointments.length]). *)
Definition patientStats (l : list appointment) : nat * nat * nat :=
  (List.length (upcomingAppointments l),
   List.length (List.filter (fun a => match prescription_of a with
                                      | Some _ => true | None => false end) l),
   List.length (pastAppointments l)).

(** Lines 244-262: in a card of the past list, the prescription block is
    rendered when [appointment.prescription && appointment.status === 'completed']. *)
Definition prescriptionBlock (a : appointment) : option prescription :=
  if status_eqb (status_of a) Completed then prescription_of a else None.

(** The prescription of document [id] as the requester's dashboard
    renders it ([None]: nothing rendered). A patient sees the cards of the
    records of their own query; the past list holds the completed and
    cancelled ones. DoctorDashboard renders no prescription field. *)
Definition viewPrescription (requester : userProfile) (db : store) (id : string)
  : option prescription :=
  match role_of requester with
  | Patient =>
      match db !! id with
      | Some a =>
          if String.eqb (patientId a) (uid requester) && status_in [Completed; Cancelled] a
          then prescriptionBlock a else None
      | None => None
      end
  | Doctor => None
  end.

(** [feedbackData[appointmentId]]: the pending entries of the feedback form. *)
Abbreviation feedbackMap := (gmap string feedback).

Inductive feedbackField := RatingField | CommentField.

(** [[field]: value] *)
Definition set_field (field : feedbackField) (value : Z + string) (e : feedback) : feedback :=
  match field, value with
  | RatingField, inl z => {| rating := z; comment := comment e |}
  | CommentField, inr s => {| rating := rating e; comment := s |}
  | _, _ => e  (* no caller passes a value of the other type *)
  end.

(** [prev[appointmentId]?.rating || 0] *)
Definition rating_or_zero (prev : option feedback) : Z :=
  match prev with
  | Some p => if Z.eqb (rating p) 0 then 0%Z else rating p
  | None => 0%Z
  end.

(** [prev[appointmentId]?.comment || ''] *)
Definition comment_or_empty (prev : option feedback) : string :=
  match prev with
  | Some p => if is_empty (comment p) then "" else comment p
  | None => ""
  end.

(** [updateFeedback(appointmentId, field, value)], lines 83-93. The object
    literal is evaluated key by key:
    [{ ...prev[id], [field]: value, rating: prev[id]?.rating || 0,
       comment: prev[id]?.comment || '' }]; a later key overwrites an
    earlier one with the same name. *)
Definition updateFeedback (id : string) (field : feedbackField) (value : Z + string)
    (fd : feedbackMap) : feedbackMap :=
  let prev := fd !! id in
  let spread := default {| rating := 0; comment := "" |} prev in
  let e1 := set_field field value spread in
  let e2 := {| rating := rating_or_zero prev; comment := comment e1 |} in
  let e3 := {| rating := rating e2; comment := comment_or_empty prev |} in
  <[id := e3]> fd.

(** [handleFeedbackSubmit(appointmentId)], lines 63-81: returns early when
    there is no entry or its rating is [0]; otherwise one [updateDoc]
    writing [feedback], after which the entry is deleted. A failed write
    is only logged. *)
Definition handleFeedbackSubmit (id : string) (fd : feedbackMap) (db : store)
  : feedbackMap * store :=
  match fd !! id with
  | None => (fd, db)
  | Some fb =>
      if Z.eqb (rating fb) 0 then (fd, db)
      else match updateDoc id (set_feedback fb) db with
           | Some db' => (delete id fd, db')
           | None => (fd, db)
           end
  end.

(** The feedback form is rendered on the card of document [id]
    ([appointment.status === 'completed' && !appointment.feedback]). *)
Definition feedbackFormShown (puid : string) (db : store) (id : string) : bool :=
  match db !! id with
  | Some a =>
      String.eqb (patientId a) puid && status_eqb (status_of a) Completed &&
      match feedback_of a with Some _ => false | None => true end
  | None => false
  end.

(** The state of one open patient session (PatientDashboard and
    BookAppointment). *)
Record patientSession := {
  ps_profile : userProfile;
  feedbackData : feedbackMap
}.

Inductive patientEvent :=
  | ClickStar (id : string) (star : Z)          (* one of the buttons 1..5 *)
  | EditComment (id : string) (text : string)   (* the comment textarea *)
  | ClickSubmitFeedback (id : string)           (* 'Submit Feedback' *)
  | SubmitBooking (newId : string) (doctors : list doctorEntry) (today : string)
      (now : Z) (selectedDoctor date_in time_in note_in : string).

(** One event of a patient session whose snapshots are the current store;
    [None] when the control is not rendered or disabled, or when the id
    [addDoc] generates is taken. *)
Definition patientStep (ps : patientSession) (db : store) (ev : patientEvent)
  : option (patientSession * store) :=
  let puid := uid (ps_profile ps) in
  match ev with
  | ClickStar id star =>
      if feedbackFormShown puid db id && Z.leb 1 star && Z.leb star 5
      then Some ({| ps_profile := ps_profile ps;
                    feedbackData := updateFeedback id RatingField (inl star) (feedbackData ps) |}, db)
      else None
  | EditComment id text =>
      if feedbackFormShown puid db id
      then Some ({| ps_profile := ps_profile ps;
                    feedbackData := updateFeedback id CommentField (inr text) (feedbackData ps) |}, db)
      else None
  | ClickSubmitFeedback id =>
      (* [disabled={!feedbackData[appointment.id]?.rating}] *)
      if feedbackFormShown puid db id && negb (Z.eqb (rating_or_zero (feedbackData ps !! id)) 0)
      then let '(fd', db') := handleFeedbackSubmit id (feedbackData ps) db in
           Some ({| ps_profile := ps_profile ps; feedbackData := fd' |}, db')
      else None
  | SubmitBooking newId doctors today now sd d t n =>
      match db !! newId with
      | Some _ => None
      | None =>
          match book db newId doctors (ps_profile ps) today now sd d t n with
          | inr db' => Some (ps, db')
          | inl _ => Some (ps, db)
          end
      end
  end.

(* ------------------------------------------------------------------ *)
(** ** The whole application: a shared store and the open sessions *)

Record system := {
  db_of : store;
  doctorSessions : list doctorSession;
  patientSessions : list patientSession
}.

Inductive event :=
  | DoctorAct (k : nat) (e : doctorEvent)
  | PatientAct (k : nat) (e : patientEvent).

Definition sys_step (s : system) (ev : event) : option system :=
  match ev with
  | DoctorAct k e =>
      match doctorSessions s !! k with
      | Some ds =>
          match doctorStep ds (db_of s) e with
          | Some (ds', db') =>
              Some {| db_of := db'; doctorSessions := <[k := ds']> (doctorSessions s);
                      patientSessions := patientSessions s |}
          | None => None
          end
      | None => None
      end
  | PatientAct k e =>
      match patientSessions s !! k with
      | Some ps =>
          match patientStep ps (db_of s) e with
          | Some (ps', db') =>
              Some {| db_of := db'; doctorSessions := doctorSessions s;
                      patientSessions := <[k := ps']> (patientSessions s) |}
          | None => None
          end
      | None => None
      end
  end.

(** An empty collection and freshly opened dashboards. *)
Definition init_system (doctorUids : list string) (patients : list userProfile) : system :=
  {| db_of := ∅;
     doctorSessions := map (fun d => {| ds_uid := d; selectedAppointment := None;
                                       prescriptionData := emptyPrescription |}) doctorUids;
     patientSessions := map (fun p => {| ps_profile := p; feedbackData := ∅ |}) patients |}.

Inductive reachable : system -> Prop :=
  | reach_init dus ps : reachable (init_system dus ps)
  | reach_step s ev s' : reachable s -> sys_step s ev = Some s' -> reachable s'.

(* ------------------------------------------------------------------ *)
(** ** Live snapshots that lag behind the store *)

(** [onSnapshot] delivers the store to each open dashboard with a delay,
    so a dashboard renders its cards and buttons from its own snapshot:
    the last version delivered to it, plus its own writes, which the
    client applies to its local cache at once. The handlers' [updateDoc]
    and [addDoc] go to the shared store. Two tabs or devices of one user
    are two sessions. *)
Record lsystem := {
  l_db : store;
  l_doctors : list (doctorSession * store);
  l_patients : list (patientSession * store)
}.

Inductive levent :=
  | LDoctorAct (k : nat) (e : doctorEvent)
  | LPatientAct (k : nat) (e : patientEvent)
  | LDeliverDoctor (k : nat)    (* the doctor's [onSnapshot] callback fires *)
  | LDeliverPatient (k : nat).  (* the patient's [onSnapshot] callbacks fire *)

(** [doctorStep] with the buttons read off the snapshot [snap] and the
    writes sent to the store [db]; the result is the session, the new
    snapshot and the new store. *)
Definition doctorStepLag (ds : doctorSession) (snap db : store) (ev : doctorEvent)
  : option (doctorSession * store * store) :=
  match ev with
  | ClickAccept id =>
      if shownToDoctor (ds_uid ds) snap id [Pending]
      then Some (ds, keep_store (updateAppointmentStatus id Confirmed snap) snap,
                 keep_store (updateAppointmentStatus id Confirmed db) db)
      else None
  | ClickDecline id =>
      if shownToDoctor (ds_uid ds) snap id [Pending]
      then Some (ds, keep_store (updateAppointmentStatus id Cancelled snap) snap,
                 keep_store (updateAppointmentStatus id Cancelled db) db)
      else None
  | ClickStart id =>
      if shownToDoctor (ds_uid ds) snap id [Confirmed]
      then Some (ds, keep_store (updateAppointmentStatus id InProgress snap) snap,
                 keep_store (updateAppointmentStatus id InProgress db) db)
      else None
  | ClickAddPrescription id =>
      if shownToDoctor (ds_uid ds) snap id [InProgress]
      then Some ({| ds_uid := ds_uid ds; selectedAppointment := Some id;
                    prescriptionData := prescriptionData ds |}, snap, db)
      else None
  | EditPrescription pd =>
      Some ({| ds_uid := ds_uid ds; selectedAppointment := selectedAppointment ds;
               prescriptionData := pd |}, snap, db)
  | ClickComplete id =>
      if opt_str_eqb (selectedAppointment ds) id &&
         shownToDoctor (ds_uid ds) snap id [Confirmed; InProgress]
      then match handlePrescriptionSubmit id (prescriptionData ds) db with
           | inr db' => Some ({| ds_uid := ds_uid ds; selectedAppointment := None;
                                 prescriptionData := emptyPrescription |},
                              keep_store (handlePrescriptionSubmit id (prescriptionData ds) snap) snap,
                              db')
           | inl _ => Some (ds, snap, db)
           end
      else None
  | ClickCancelForm =>
      Some ({| ds_uid := ds_uid ds; selectedAppointment := None;
               prescriptionData := prescriptionData ds |}, snap, db)
  end.

(** [patientStep] with the feedback form and the today count read off the
    snapshot [snap] and the writes sent to the store [db]. The count that
    [handleSubmit] compares with 2 is the snapshot's, so two tabs can both
    pass it before either [addDoc] arrives. *)
Definition patientStepLag (ps : patientSession) (snap db : store) (ev : patientEvent)
  : option (patientSession * store * store) :=
  let puid := uid (ps_profile ps) in
  match ev with
  | ClickStar id star =>
      if feedbackFormShown puid snap id && Z.leb 1 star && Z.leb star 5
      then Some ({| ps_profile := ps_profile ps;
                    feedbackData := updateFeedback id RatingField (inl star) (feedbackData ps) |},
                 snap, db)
      else None
  | EditComment id text =>
      if feedbackFormShown puid snap id
      then Some ({| ps_profile := ps_profile ps;
                    feedbackData := updateFeedback id CommentField (inr text) (feedbackData ps) |},
                 snap, db)
      else None
  | ClickSubmitFeedback id =>
      if feedbackFormShown puid snap id && negb (Z.eqb (rating_or_zero (feedbackData ps !! id)) 0)
      then let '(fd', db') := handleFeedbackSubmit id (feedbackData ps) db in
           Some ({| ps_profile := ps_profile ps; feedbackData := fd' |},
                 snd (handleFeedbackSubmit id (feedbackData ps) snap), db')
      else None
  | SubmitBooking newId doctors today now sd d t n =>
      match db !! newId with
      | Some _ => None
      | None =>
          match handleSubmit snap doctors (ps_profile ps) today now sd d t n with
          | inr a => Some (ps, <[newId := a]> snap, <[newId := a]> db)
          | inl _ => Some (ps, snap, db)
          end
      end
  end.

Definition lstep (s : lsystem) (ev : levent) : option lsystem :=
  match ev with
  | LDoctorAct k e =>
      match l_doctors s !! k with
      | Some (ds, snap) =>
          match doctorStepLag ds snap (l_db s) e with
          | Some (ds', snap', db') =>
              Some {| l_db := db'; l_doctors := <[k := (ds', snap')]> (l_doctors s);
                      l_patients := l_patients s |}
          | None => None
          end
      | None => None
      end
  | LPatientAct k e =>
      match l_patients s !! k with
      | Some (ps, snap) =>
          match patientStepLag ps snap (l_db s) e with
          | Some (ps', snap', db') =>
              Some {| l_db := db'; l_doctors := l_doctors s;
                      l_patients := <[k := (ps', snap')]> (l_patients s) |}
          | None => None
          end
      | None => None
      end
  | LDeliverDoctor k =>
      match l_doctors s !! k with
      | Some (ds, _) =>
          Some {| l_db := l_db s; l_doctors := <[k := (ds, l_db s)]> (l_doctors s);
                  l_patients := l_patients s |}
      | None => None
      end
  | LDeliverPatient k =>
      match l_patients s !! k with
      | Some (ps, _) =>
          Some {| l_db := l_db s; l_doctors := l_doctors s;
                  l_patients := <[k := (ps, l_db s)]> (l_patients s) |}
      | None => None
      end
  end.

(** Freshly opened dashboards, before their first snapshot. *)
Definition linit (doctorUids : list string) (patients : list userProfile) : lsystem :=
  {| l_db := ∅;
     l_doctors := map (fun d => ({| ds_uid := d; selectedAppointment := None;
                                   prescriptionData := emptyPrescription |}, ∅)) doctorUids;
     l_patients := map (fun p => ({| ps_profile := p; feedbackData := ∅ |}, ∅)) patients |}.

Inductive lreachable : lsystem -> Prop :=
  | lreach_init dus ps : lreachable (linit dus ps)
  | lreach_step s ev s' : lreachable s -> lstep s ev = Some s' -> lreachable s'.

(** The edges of the status workflow. *)
Inductive edge : status -> status -> Prop :=
  | edge_accept : edge Pending Confirmed
  | edge_decline : edge Pending Cancelled
  | edge_start : edge Confirmed InProgress
  | edge_complete : edge InProgress Completed.

(** From [db] to [db'] every record keeps its status or moves along one
    edge, and every new record is pending. *)
Definition follows_edges (db db' : store) : Prop :=
  (forall id a, db !! id = Some a ->
     exists a', db' !! id = Some a' /\
       (status_of a' = status_of a \/ edge (status_of a) (status_of a'))) /\
  (forall id a', db !! id = None -> db' !! id = Some a' -> status_of a' = Pending).

(** The write a doctor's click [e] makes on document [id]: [b] is the
    document as the tab's snapshot shows it, [a] as the store holds it
    and [a'] as the click leaves it in the store. *)
Definition doctor_write (ds : doctorSession) (e : doctorEvent) (id : string)
    (b a a' : appointment) : Prop :=
  (e = ClickAccept id /\ status_of b = Pending /\ a' = set_status Confirmed a) \/
  (e = ClickDecline id /\ status_of b = Pending /\ a' = set_status Cancelled a) \/
  (e = ClickStart id /\ status_of b = Confirmed /\ a' = set_status InProgress a) \/
  (e = ClickComplete id /\ selectedAppointment ds = Some id /\
   (status_of b = Confirmed \/ status_of b = InProgress) /\
   is_empty (trim (medicine (prescriptionData ds))) = false /\
   a' = set_completed_with (prescriptionData ds) a).

(** No document carries a feedback, and every pending entry of every
    open patient session is rated 0. *)
Definition lno_feedback (ls : lsystem) : Prop :=
  (forall id a, l_db ls !! id = Some a -> feedback_of a = None) /\
  List.Forall (fun p => forall id fb, feedbackData (fst p) !! id = Some fb -> rating fb = 0%Z)
              (l_patients ls).

(* ------------------------------------------------------------------ *)
(** ** AuthContext (src/project/src/contexts/AuthContext.tsx) *)

Record account := {
  acc_email : string;
  acc_password : string;
  acc_uid : string
}.

(** Firebase Auth's accounts and the [users] collection. *)
Record authState := {
  accounts : list account;
  profiles : gmap string userProfile
}.

Definition emptyAuth : authState := {| accounts := []; profiles := ∅ |}.

Inductive registerError :=
  | EmailDomainMsg   (* 'Email must end with @meditrack.local' *)
  | AuthFailed.      (* rejected by createUserWithEmailAndPassword *)

(** [validateEmail], lines 45-47. *)
Definition validateEmail (e : string) : bool := endsWith e "@meditrack.local".

Section Auth.
(** The identity provider: the uid it generates and its password policy. *)
Variable newUid : authState -> string.
Variable passwordAccepted : string -> bool.

(** [createUserWithEmailAndPassword]: fails on a taken email or a
    rejected password. *)
Definition createUserWithEmailAndPassword (st : authState) (e pw : string)
  : option account :=
  if existsb (fun acc => String.eqb (acc_email acc) e) (accounts st)
     || negb (passwordAccepted pw)
  then None
  else Some {| acc_email := e; acc_password := pw; acc_uid := newUid st |}.

(** [register], lines 49-68: the profile stores [user.email]. *)
Definition register (st : authState) (e pw first last : string) (r : role)
  : registerError + authState :=
  if negb (validateEmail e) then inl EmailDomainMsg
  else match createUserWithEmailAndPassword st e pw with
       | None => inl AuthFailed
       | Some acc =>
           inr {| accounts := acc :: accounts st;
                  profiles := <[acc_uid acc := {| uid := acc_uid acc; email := acc_email acc;
                                                  role_of := r; firstName := first;
                                                  lastName := last |}]> (profiles st) |}
       end.

(** A sequence of registration attempts; a thrown error changes nothing. *)
Fixpoint run_registers (st : authState)
    (calls : list (string * string * string * string * role)) : authState :=
  match calls with
  | [] => st
  | (e, pw, f, l, r) :: rest =>
      match register st e pw f l r with
      | inr st' => run_registers st' rest
      | inl _ => run_registers st rest
      end
  end.
End Auth.

(** [signInWithEmailAndPassword] followed by [fetchUserProfile]: the
    identity [(uid, role)] the session obtains. *)
Definition signIn (st : authState) (e pw : string) : option (string * role) :=
  match List.find (fun acc => String.eqb (acc_email acc) e && String.eqb (acc_password acc) pw)
                  (accounts st) with
  | Some acc =>
      match profiles st !! acc_uid acc with
      | Some p => Some (uid p, role_of p)
      | None => None
      end
  | None => None
  end.

(* ------------------------------------------------------------------ *)
(** ** AuthProvider session (AuthContext.tsx, lines 40-99) *)

(** The provider's state: [currentUser] (the signed-in user's uid),
    [userProfile] and [loading]. *)
Record authSession := {
  currentUser : option string;
  sessionProfile : option userProfile;
  loading : bool
}.

Definition initialAuthSession : authSession :=
  {| currentUser := None; sessionProfile := None; loading := true |}.

(** [fetchUserProfile(uid)], lines 79-85: [setUserProfile] is only called
    when the [users] document exists. *)
Definition fetchUserProfile (st : authState) (u : string) (current : option userProfile)
  : option userProfile :=
  match profiles st !! u with
  | Some p => Some p
  | None => current
  end.

(** The [onAuthStateChanged] callback, lines 88-96. *)
Definition onAuthStateChanged (st : authState) (user : option string) (sess : authSession)
  : authSession :=
  {| currentUser := user;
     sessionProfile := match user with
                       | Some u => fetchUserProfile st u (sessionProfile sess)
                       | None => None
                       end;
     loading := false |}.

(** [signInWithEmailAndPassword]: the uid of the matching account. *)
Definition signInWithEmailAndPassword (st : authState) (e pw : string) : option string :=
  match List.find (fun acc => String.eqb (acc_email acc) e && String.eqb (acc_password acc) pw)
                  (accounts st) with
  | Some acc => Some (acc_uid acc)
  | None => None
  end.

(** [login], lines 70-72, and the listener call it triggers; [None]: the
    sign-in throws. *)
Definition login (st : authState) (e pw : string) (sess : authSession) : option authSession :=
  match signInWithEmailAndPassword st e pw with
  | Some u => Some (onAuthStateChanged st (Some u) sess)
  | None => None
  end.

(** [logout], lines 74-77: [signOut] fires the listener with [null], then
    [setUserProfile(null)]. *)
Definition logout (st : authState) (sess : authSession) : authSession :=
  let s1 := onAuthStateChanged st None sess in
  {| currentUser := currentUser s1; sessionProfile := None; loading := loading s1 |}.

(* ------------------------------------------------------------------ *)
(** ** Navbar (src/project/src/components/Navbar.tsx) *)

(** [userProfile?.role === r] *)
Definition has_role (r : role) (p : option userProfile) : bool :=
  match p with
  | Some pr => match role_of pr, r with
               | Doctor, Doctor | Patient, Patient => true
               | _, _ => false
               end
  | None => false
  end.

(** What the navbar renders: the logo's target, the menu links, the name
    line and the role line. *)
Record navbarView := {
  logoLink : string;
  menuLinks : list string;
  nameShown : option (string * string);
  roleShown : option role
}.

(** [Navbar], lines 6-84; [None]: [return null]. *)
Definition navbar (sess : authSession) : option navbarView :=
  match currentUser sess with
  | None => None
  | Some _ =>
      let p := sessionProfile sess in
      Some {| logoLink := if has_role Doctor p then "/doctor-dashboard" else "/patient-dashboard";
              menuLinks := if has_role Patient p
                           then ["/patient-dashboard"; "/book-appointment"]
                           else ["/doctor-dashboard"];
              nameShown := option_map (fun pr => (firstName pr, lastName pr)) p;
              roleShown := option_map role_of p |}
  end%string.

(* ------------------------------------------------------------------ *)
(** ** BookAppointment: doctor list and daily-limit banner *)

(** [fetchDoctors], lines 387-395: the [users] documents whose role is
    doctor, read as [Doctor] entries. *)
Definition fetchDoctors (st : authState) : list doctorEntry :=
  map (fun p => {| d_uid := uid p; d_firstName := firstName p; d_lastName := lastName p;
                   d_email := email p |})
      (List.filter (fun p => has_role Doctor (Some p)) ((map_to_list (profiles st)).*2)).

(** Lines 480-490: the warning rendered when [todayAppointments > 0],
    with the booked count and [2 - todayAppointments] remaining. *)
Definition dailyLimitBanner (todayCount : nat) : option (nat * Z) :=
  if Nat.ltb 0 todayCount then Some (todayCount, (2 - Z.of_nat todayCount)%Z) else None.

(* ------------------------------------------------------------------ *)
(** ** Sample data *)

Definition patientAna : userProfile :=
  {| uid := "p1"; email := "ana@meditrack.local"; role_of := Patient;
     firstName := "Ana"; lastName := "Lee" |}.

Definition doctorBo : userProfile :=
  {| uid := "d1"; email := "bo@meditrack.local"; role_of := Doctor;
     firstName := "Bo"; lastName := "Ray" |}.

Definition doctorList : list doctorEntry :=
  [{| d_uid := "d1"; d_firstName := "Bo"; d_lastName := "Ray"; d_email := "bo@meditrack.local" |}].

Definition mkAppointment (pid d : string) (s : status) (p : option prescription)
    (fb : option feedback) : appointment :=
  {| doctorId := "d1"; doctorName := "Bo Ray"; patientId := pid; patientName := "Ana Lee";
     date := d; time := "09:00"; status_of := s; note := ""; prescription_of := p;
     feedback_of := fb; createdAt := 0%Z |}.

Definition amoxicillin : prescription :=
  {| medicine := "Amoxicillin"; dosage := "500mg"; frequency := "Twice daily";
     instructions := "After meals" |}.

Definition ibuprofen : prescription :=
  {| medicine := "Ibuprofen"; dosage := "200mg"; frequency := "Three times daily";
     instructions := "With water" |}.

(** Two appointments of Ana on 2025-06-05. *)
Definition twoOnJune5 : store :=
  <["a2" := mkAppointment "p1" "2025-06-05" Confirmed None None]>
  (<["a1" := mkAppointment "p1" "2025-06-05" Pending None None]> ∅).

(** Two appointments of Ana on 2025-06-01. *)
Definition twoOnJune1 : store :=
  <["a2" := mkAppointment "p1" "2025-06-01" Confirmed None None]>
  (<["a1" := mkAppointment "p1" "2025-06-01" Pending None None]> ∅).

Definition feedbackOf (r : Z) (c : string) : feedback := {| rating := r; comment := c |}.

(** Reference counts used to state the aggregation claims. *)
Definition count_status (st : status) (l : list appointment) : nat :=
  List.length (List.filter (fun a => status_eqb (status_of a) st) l).

Definition ratings_total (l : list appointment) : Z :=
  fold_right (fun a acc => (feedback_rating a + acc)%Z) 0%Z l.

(** Running a sequence of events; an event whose control is not rendered
    changes nothing. *)
Definition run_events (s : system) (evs : list event) : system :=
  fold_left (fun s ev => match sys_step s ev with Some s' => s' | None => s end) evs s.

(** Scenario: Ana books doctor Bo, who accepts, starts and completes the
    visit with a prescription. *)
Definition state0 : system := init_system ["d1"%string] [patientAna].

Definition bookEvent : event :=
  PatientAct 0 (SubmitBooking "a1" doctorList "2025-06-01" 0 "d1" "2025-06-02" "09:00" "").

Definition state1 : system := run_events state0 [bookEvent].

Definition acceptEvent : event := DoctorAct 0 (ClickAccept "a1").

Definition state2 : system := run_events state1 [acceptEvent].

Definition state5 : system :=
  run_events state2 [DoctorAct 0 (ClickStart "a1"); DoctorAct 0 (ClickAddPrescription "a1");
                     DoctorAct 0 (EditPrescription amoxicillin)].

Definition completeEvent : event := DoctorAct 0 (ClickComplete "a1").

Definition state6 : system := run_events state5 [completeEvent].

Definition lrun (s : lsystem) (evs : list levent) : lsystem :=
  fold_left (fun s ev => match lstep s ev with Some s' => s' | None => s end) evs s.

(** Doctor Bo has two dashboard tabs open; Ana books, and both tabs
    receive the pending booking. *)
Definition lstate0 : lsystem := linit ["d1"; "d1"]%string [patientAna].

Definition twoTabsPending : lsystem :=
  lrun lstate0
    [LPatientAct 0 (SubmitBooking "a1" doctorList "2025-06-01" 0 "d1" "2025-06-02" "09:00" "");
     LDeliverDoctor 0; LDeliverDoctor 1].

(** The first tab declines; the second has not yet received that update. *)
Definition declinedInTab0 : lsystem := lrun twoTabsPending [LDoctorAct 0 (ClickDecline "a1")].

(** Both tabs receive the visit in progress and open the prescription
    form, each with its own draft. *)
Definition twoTabsInProgress : lsystem :=
  lrun twoTabsPending
    [LDoctorAct 0 (ClickAccept "a1"); LDoctorAct 0 (ClickStart "a1");
     LDeliverDoctor 0; LDeliverDoctor 1;
     LDoctorAct 0 (ClickAddPrescription "a1"); LDoctorAct 1 (ClickAddPrescription "a1");
     LDoctorAct 0 (EditPrescription amoxicillin); LDoctorAct 1 (EditPrescription ibuprofen)].

(** The first tab completes the visit; Ana's dashboard receives it. *)
Definition completedInTab0 : lsystem :=
  lrun twoTabsInProgress [LDoctorAct 0 (ClickComplete "a1")].

Definition feedbackFormOpen : lsystem := lrun completedInTab0 [LDeliverPatient 0].

(** 2025-06-01T23:00:00Z, which is 08:00 on 2025-06-02 in Tokyo, whose
    offset from UTC is nine hours. *)
Definition tokyoMorning : Z := 1748818800000.

Definition tokyoOffset : Z := 32400000.

(** 2025-06-02T01:00:00Z, which is 21:00 on 2025-06-01 in New York, four
    hours behind UTC in summer. *)
Definition newYorkEvening : Z := 1748826000000.

Definition newYorkOffset : Z := 14400000.

(** Two completed visits of doctor Bo, rated 5 and 3. *)
Definition ratedStore : store :=
  <["a2" := mkAppointment "p1" "2025-06-03" Completed (Some amoxicillin) (Some (feedbackOf 3 ""))]>
  (<["a1" := mkAppointment "p1" "2025-06-02" Completed (Some amoxicillin) (Some (feedbackOf 5 ""))]> ∅).

(** A patient whose only appointment was declined. *)
Definition oneCancelled : list appointment :=
  [mkAppointment "p1" "2025-06-02" Cancelled None None].

(** Document ids for repeated bookings: "x", "xx", "xxx", ... *)
Fixpoint idOf (j : nat) : string :=
  match j with
  | O => "x"
  | S k => String "x" (idOf k)
  end.

(** The [j]-th booking Ana submits on 2025-06-01 for 2025-06-02. *)
Definition advanceBooking (j : nat) : event :=
  PatientAct 0 (SubmitBooking (idOf j) doctorList "2025-06-01" 0 "d1" "2025-06-02" "09:00" "").

Definition advanceBookings (n : nat) : list event := map advanceBooking (seq 0 n).

(** The identity provider hands out "d1" for the first account and "p1"
    afterwards. *)
Definition sampleUid (st : authState) : string :=
  match accounts st with [] => "d1" | _ => "p1" end.

(** Doctor Bo and patient Ana register. *)
Definition clinicAuth : authState :=
  run_registers sampleUid (fun _ => true) emptyAuth
    [("bo@meditrack.local", "pw", "Bo", "Ray", Doctor);
     ("ana@meditrack.local", "pw", "Ana", "Lee", Patient)].

(** Ana's provider state after signing in. *)
Definition anaSession : authSession :=
  onAuthStateChanged clinicAuth (Some "p1") initialAuthSession.

(** A doctor session with a draft prescription, and a store with one
    in-progress visit of doctor Bo. *)
Definition draftSession : doctorSession :=
  {| ds_uid := "d1"; selectedAppointment := Some "a1"; prescriptionData := amoxicillin |}.

Definition inProgressStore : store :=
  <["a2" := mkAppointment "p1" "2025-06-02" InProgress None None]>
  (<["a1" := mkAppointment "p1" "2025-06-02" InProgress None None]> ∅).

(** Ana's open patient session. *)
Definition anaSessionRecord : patientSession :=
  {| ps_profile := patientAna; feedbackData := ∅ |}.

(** No document carries a feedback and every pending rating is 0. *)
Definition no_feedback (s : system) : Prop :=
  (forall id a, db_of s !! id = Some a -> feedback_of a = None) /\
  List.Forall (fun ps => forall id fb, feedbackData ps !! id = Some fb -> rating fb = 0%Z)
    (patientSessions s).

(** Registration attempts: one outside the domain, one inside. *)
Definition sampleRegisters : list (string * string * string * string * role) :=
  [("ana@gmail.com", "secret1", "Ana", "Lee", Patient);
   ("ana@meditrack.local", "secret1", "Ana", "Lee", Patient)].

(* ================================================================== *)
(** * Properties *)

(* ------------------------------------------------------------------ *)
(** ** Booking *)

Lemma filter_length_perm {A} (f : A -> bool) (l l' : list A) :
  l ≡ₚ l' -> List.length (List.filter f l) = List.length (List.filter f l').
Proof.
  induction 1 as [|x l l' _ IH|x y l|l l' l'' _ IH1 _ IH2]; simpl.
  - reflexivity.
  - destruct (f x); simpl; lia.
  - destruct (f x), (f y); simpl; lia.
  - lia.
Qed.

(** Adding a fresh document adds one to [todayAppointments] exactly when
    it is the patient's and dated [today]. *)
Lemma todayAppointments_insert (db : store) id a p today :
  db !! id = None ->
  todayAppointments (<[id := a]> db) p today =
  ((if String.eqb (patientId a) p && String.eqb (date a) today then 1 else 0) +
   todayAppointments db p today)%nat.
Proof.
  intros Hfresh. unfold todayAppointments, docs.
  rewrite (filter_length_perm _ _ (((id, a) :: map_to_list db).*2)).
  - simpl. destruct (_ && _); reflexivity.
  - by rewrite map_to_list_insert.
Qed.

(** C1 (amended): the cap counts the caller's documents dated [today]
    (any status), not those of the requested date. With two or more of
    them every booking is refused with the daily-limit message and
    nothing is written, whatever date is requested; with fewer the cap
    does not refuse; documents of other patients or other dates do not
    change the outcome. *)
Theorem daily_cap_counts_todays_records :
  forall (db : store) (newId : string) (doctors : list doctorEntry)
         (profile : userProfile) (today : string) (now : Z)
         (sd d t n : string),
    ((2 <= todayAppointments db (uid profile) today)%nat ->
       book db newId doctors profile today now sd d t n = inl DailyLimitMsg) /\
    ((todayAppointments db (uid profile) today < 2)%nat ->
       handleSubmit db doctors profile today now sd d t n <> inl DailyLimitMsg) /\
    (forall (id : string) (a : appointment), db !! id = None ->
       (patientId a <> uid profile \/ date a <> today) ->
       handleSubmit (<[id := a]> db) doctors profile today now sd d t n =
       handleSubmit db doctors profile today now sd d t n).
Proof.
  intros db newId doctors profile today now sd d t n. split; [|split].
  - intros Hle. unfold book, handleSubmit.
    apply Nat.leb_le in Hle. rewrite Hle. reflexivity.
  - intros Hlt. unfold handleSubmit.
    replace (Nat.leb 2 (todayAppointments db (uid profile) today)) with false
      by (symmetry; apply Nat.leb_gt; lia).
    destruct (_ || _ || _); [discriminate|].
    destruct (str_ltb d today); [discriminate|].
    destruct (List.find _ _); discriminate.
  - intros id a Hfresh Hother. unfold handleSubmit.
    rewrite todayAppointments_insert by exact Hfresh.
    destruct Hother as [Hp | Hd].
    + destruct (String.eqb_spec (patientId a) (uid profile)); [contradiction|].
      reflexivity.
    + destruct (String.eqb_spec (date a) today); [contradiction|].
      rewrite andb_false_r. reflexivity.
Qed.

Lemma daily_cap_counts_todays_records_witness :
  (2 <= todayAppointments twoOnJune1 "p1" "2025-06-01")%nat /\
  book twoOnJune1 "a3" doctorList patientAna "2025-06-01" 0 "d1" "2025-06-07" "09:00" ""
    = inl DailyLimitMsg.
Proof.
  split.
  - apply Nat.leb_le. vm_compute. reflexivity.
  - apply (daily_cap_counts_todays_records twoOnJune1 "a3" doctorList patientAna
             "2025-06-01" 0 "d1" "2025-06-07" "09:00" "").
    apply Nat.leb_le. vm_compute. reflexivity.
Defined.

(** C1 counterexample: Ana already has two appointments on 2025-06-05;
    booking a third one for that date on 2025-06-01 is written. *)
Lemma daily_cap_requested_date_counterexample :
  List.length (List.filter (fun a => String.eqb (patientId a) "p1" &&
                                     String.eqb (date a) "2025-06-05") (docs twoOnJune5)) = 2%nat /\
  exists db', book twoOnJune5 "a3" doctorList patientAna "2025-06-01" 0
                   "d1" "2025-06-05" "09:00" "" = inr db' /\
              size db' = 3%nat.
Proof.
  split.
  - vm_compute. reflexivity.
  - eexists. split; [vm_compute; reflexivity|]. vm_compute. reflexivity.
Qed.

(** C6 (code bug: the past-date check uses the UTC date). [today] is
    [new Date().toISOString().split('T')[0]], the date in UTC, not on the
    caller's calendar; the date input's [min] and [handleSubmit] compare
    the requested date with it. The form itself rules out the other
    failures: every submission it lets through, for a doctor list whose
    uids are non-empty as Firebase uids are, names a fetched doctor and
    one of the twelve slots, has a date not before the UTC date and fewer
    than two of the patient's documents dated that UTC day, and books a
    pending document with [createdAt] the click time, the requested date
    and time, no prescription or feedback, and the doctor's and patient's
    names copied. A patient in Tokyo (UTC+9) at 08:00 on 2025-06-02 local
    time, when the UTC date is still 2025-06-01, books 2025-06-01, a day
    already past on their calendar; a patient in New York (UTC-4) at 21:00
    on 2025-06-01 local time, when the UTC date is already 2025-06-02,
    cannot book their own current date 2025-06-01. *)
Theorem booking_past_date_check_uses_utc :
  (forall (snap : store) (doctors : list doctorEntry) (profile : userProfile)
          (renderMs nowMs : Z) (sd d t n : string) (r : bookingError + appointment),
     (forall dd, In dd doctors -> d_uid dd <> ""%string) ->
     submitBookingForm snap doctors profile renderMs nowMs sd d t n = Some r ->
     exists a, r = inr a /\
       (todayAppointments snap (uid profile) (isoDate renderMs) < 2)%nat /\
       str_ltb d (isoDate renderMs) = false /\ In t timeSlots /\
       status_of a = Pending /\ createdAt a = nowMs /\
       patientId a = uid profile /\ doctorId a = sd /\ date a = d /\ time a = t /\
       prescription_of a = None /\ feedback_of a = None /\
       patientName a = (firstName profile ++ " " ++ lastName profile)%string /\
       exists dd, In dd doctors /\ d_uid dd = sd /\
                  doctorName a = (d_firstName dd ++ " " ++ d_lastName dd)%string) /\
  (isoDate tokyoMorning = "2025-06-01"%string /\
  isoDate (tokyoMorning + tokyoOffset) = "2025-06-02"%string /\
  exists a, submitBookingForm ∅ doctorList patientAna tokyoMorning tokyoMorning
              "d1" "2025-06-01" "09:00" "" = Some (inr a) /\
            date a = "2025-06-01"%string /\ status_of a = Pending /\
            str_ltb (date a) (isoDate (tokyoMorning + tokyoOffset)) = true) /\
  isoDate newYorkEvening = "2025-06-02"%string /\
  isoDate (newYorkEvening - newYorkOffset) = "2025-06-01"%string /\
  submitBookingForm ∅ doctorList patientAna newYorkEvening newYorkEvening
    "d1" "2025-06-01" "09:00" "" = None.
Proof.
  split; [|split; [|split; [vm_compute; reflexivity|split; [vm_compute; reflexivity|]]]].
  - intros snap doctors profile renderMs nowMs sd d t n r Huids. unfold submitBookingForm.
    destruct (Nat.leb_spec 2 (todayAppointments snap (uid profile) (isoDate renderMs)))
      as [_|Hlt]; [discriminate|].
    destruct (existsb (fun dd => String.eqb (d_uid dd) sd) doctors) eqn:Hdoc; [|discriminate].
    destruct (is_empty d) eqn:He; [discriminate|].
    destruct (str_ltb d (isoDate renderMs)) eqn:Hpast; [discriminate|].
    destruct (existsb (String.eqb t) timeSlots) eqn:Hslot; [|discriminate].
    simpl. intros H. injection H as <-.
    apply existsb_exists in Hdoc as [dd [Hin Hdd]]. apply String.eqb_eq in Hdd.
    apply existsb_exists in Hslot as [t' [Hin_t Ht]]. apply String.eqb_eq in Ht. subst t'.
    assert (Hsd : sd <> ""%string) by (subst sd; exact (Huids dd Hin)).
    assert (Ht0 : t <> ""%string).
    { intros ->. simpl in Hin_t.
      repeat (destruct Hin_t as [Hin_t|Hin_t]; [discriminate Hin_t|]). exact Hin_t. }
    unfold handleSubmit.
    replace (Nat.leb 2 _) with false by (symmetry; apply Nat.leb_gt; exact Hlt).
    unfold is_empty in *.
    rewrite (proj2 (String.eqb_neq _ _) Hsd), He, (proj2 (String.eqb_neq _ _) Ht0).
    simpl. rewrite Hpast.
    destruct (List.find (fun dd => String.eqb (d_uid dd) sd) doctors) as [dd'|] eqn:Hf.
    + apply List.find_some in Hf as [Hin' Heq']. apply String.eqb_eq in Heq'.
      eexists. split; [reflexivity|]. repeat split; auto.
      exists dd'. auto.
    + exfalso. apply (List.find_none _ _ Hf) in Hin.
      rewrite Hdd, String.eqb_refl in Hin. discriminate.
  - split; [vm_compute; reflexivity|]. split; [vm_compute; reflexivity|].
    eexists. split; [vm_compute; reflexivity|]. vm_compute. auto.
  - vm_compute. reflexivity.
Qed.

(** Ana books Bo for 2025-06-03 at 14:00, a minute after the form was
    last rendered. *)
Lemma booking_past_date_check_uses_utc_witness :
  exists a, submitBookingForm ∅ doctorList patientAna tokyoMorning (tokyoMorning + 60000)%Z
              "d1" "2025-06-03" "14:00" "flu" = Some (inr a) /\
            status_of a = Pending /\ createdAt a = (tokyoMorning + 60000)%Z.
Proof.
  destruct (submitBookingForm ∅ doctorList patientAna tokyoMorning (tokyoMorning + 60000)%Z
              "d1" "2025-06-03" "14:00" "flu") as [r|] eqn:Hr;
    [|vm_compute in Hr; discriminate Hr].
  destruct (proj1 booking_past_date_check_uses_utc ∅ doctorList patientAna tokyoMorning
              (tokyoMorning + 60000)%Z "d1" "2025-06-03" "14:00" "flu" r
              ltac:(intros dd Hin; simpl in Hin; destruct Hin as [<-|[]]; discriminate) Hr)
    as (a & -> & _ & _ & _ & Hs & Hc & _).
  exists a. auto.
Defined.

(* ------------------------------------------------------------------ *)
(** ** Status workflow: what the dashboards can write *)

Lemma follows_edges_refl (db : store) : follows_edges db db.
Proof.
  split.
  - intros id a H. exists a. auto.
  - intros id a' H1 H2. congruence.
Qed.

Lemma follows_edges_update (db : store) id (f : appointment -> appointment) a :
  db !! id = Some a ->
  (status_of (f a) = status_of a \/ edge (status_of a) (status_of (f a))) ->
  follows_edges db (<[id := f a]> db).
Proof.
  intros Ha Hs. split.
  - intros id' b Hb. destruct (decide (id = id')) as [<-|Hne].
    + rewrite Ha in Hb. injection Hb as <-. exists (f a).
      rewrite lookup_insert_eq. auto.
    + exists b. rewrite lookup_insert_ne by exact Hne. auto.
  - intros id' b H1 H2. destruct (decide (id = id')) as [<-|Hne].
    + congruence.
    + rewrite lookup_insert_ne in H2 by exact Hne. congruence.
Qed.

Lemma follows_edges_fresh (db : store) id a :
  db !! id = None -> status_of a = Pending -> follows_edges db (<[id := a]> db).
Proof.
  intros Hf Hs. split.
  - intros id' b Hb. destruct (decide (id = id')) as [<-|Hne].
    + congruence.
    + exists b. rewrite lookup_insert_ne by exact Hne. auto.
  - intros id' b H1 H2. destruct (decide (id = id')) as [<-|Hne].
    + rewrite lookup_insert_eq in H2. congruence.
    + rewrite lookup_insert_ne in H2 by exact Hne. congruence.
Qed.

Lemma follows_edges_keep {E} (db : store) (r : E + store) :
  (forall db', r = inr db' -> follows_edges db db') ->
  follows_edges db (keep_store r db).
Proof.
  destruct r as [e|db']; simpl; intros H; [apply follows_edges_refl | auto].
Qed.

Lemma status_in_spec allowed a :
  status_in allowed a = true <-> In (status_of a) allowed.
Proof.
  unfold status_in, status_eqb. rewrite existsb_exists. split.
  - intros [s [Hin Hs]]. apply bool_decide_eq_true in Hs. subst. exact Hin.
  - intros Hin. exists (status_of a). split; [exact Hin|]. by apply bool_decide_eq_true.
Qed.

Lemma shownToDoctor_spec duid (db : store) id allowed :
  shownToDoctor duid db id allowed = true ->
  exists a, db !! id = Some a /\ doctorId a = duid /\ In (status_of a) allowed.
Proof.
  unfold shownToDoctor. destruct (db !! id) as [a|]; [|discriminate].
  intros H. apply andb_true_iff in H as [H1 H2].
  apply String.eqb_eq in H1. apply status_in_spec in H2. eauto.
Qed.

Lemma updateAppointmentStatus_ok id s (db : store) a :
  db !! id = Some a ->
  updateAppointmentStatus id s db = inr (<[id := set_status s a]> db).
Proof. intros Ha. unfold updateAppointmentStatus, updateDoc. by rewrite Ha. Qed.

Lemma handlePrescriptionSubmit_inv id pd (db db' : store) :
  handlePrescriptionSubmit id pd db = inr db' ->
  is_empty (trim (medicine pd)) = false /\
  exists a, db !! id = Some a /\ db' = <[id := set_completed_with pd a]> db.
Proof.
  unfold handlePrescriptionSubmit, updateDoc.
  destruct (is_empty _); [discriminate|].
  destruct (db !! id) as [a|]; [|discriminate].
  intros H. injection H as <-. eauto.
Qed.

(** The document a doctor session has selected for the prescription form
    exists and is in progress or already completed. *)
Definition doctor_inv (db : store) (ds : doctorSession) : Prop :=
  forall id, selectedAppointment ds = Some id ->
    exists a, db !! id = Some a /\ (status_of a = InProgress \/ status_of a = Completed).

Lemma doctor_inv_follows (db db' : store) ds :
  doctor_inv db ds -> follows_edges db db' -> doctor_inv db' ds.
Proof.
  intros Hinv [Hold _] id Hsel.
  destruct (Hinv id Hsel) as [a [Ha Hs]].
  destruct (Hold id a Ha) as [a' [Ha' Hs']].
  exists a'. split; [exact Ha'|].
  destruct Hs' as [Heq | Hedge]; [rewrite Heq; exact Hs|].
  destruct Hs as [Hs|Hs]; rewrite Hs in Hedge; inversion Hedge; auto.
Qed.

Lemma doctorStep_follows ds (db : store) ev ds' db' :
  doctor_inv db ds -> doctorStep ds db ev = Some (ds', db') -> follows_edges db db'.
Proof.
  intros Hinv. destruct ev as [id|id|id|id|pd|id|]; simpl.
  - destruct (shownToDoctor _ db id [Pending]) eqn:Hsh; [|discriminate].
    apply shownToDoctor_spec in Hsh as [a [Ha [_ Hs]]].
    intros H. injection H as <- <-. rewrite (updateAppointmentStatus_ok _ _ _ _ Ha).
    apply (follows_edges_update _ _ (set_status Confirmed) _ Ha).
    simpl in Hs. destruct Hs as [Hs|[]]. right. rewrite <- Hs. constructor.
  - destruct (shownToDoctor _ db id [Pending]) eqn:Hsh; [|discriminate].
    apply shownToDoctor_spec in Hsh as [a [Ha [_ Hs]]].
    intros H. injection H as <- <-. rewrite (updateAppointmentStatus_ok _ _ _ _ Ha).
    apply (follows_edges_update _ _ (set_status Cancelled) _ Ha).
    simpl in Hs. destruct Hs as [Hs|[]]. right. rewrite <- Hs. constructor.
  - destruct (shownToDoctor _ db id [Confirmed]) eqn:Hsh; [|discriminate].
    apply shownToDoctor_spec in Hsh as [a [Ha [_ Hs]]].
    intros H. injection H as <- <-. rewrite (updateAppointmentStatus_ok _ _ _ _ Ha).
    apply (follows_edges_update _ _ (set_status InProgress) _ Ha).
    simpl in Hs. destruct Hs as [Hs|[]]. right. rewrite <- Hs. constructor.
  - destruct (shownToDoctor _ db id [InProgress]); [|discriminate].
    intros H. injection H as <- <-. apply follows_edges_refl.
  - intros H. injection H as <- <-. apply follows_edges_refl.
  - destruct (opt_str_eqb (selectedAppointment ds) id) eqn:Hsel; [|discriminate].
    destruct (shownToDoctor _ db id [Confirmed; InProgress]) eqn:Hsh; [|discriminate].
    simpl.
    destruct (handlePrescriptionSubmit id (prescriptionData ds) db) as [e|db1] eqn:Hp.
    + intros H. injection H as <- <-. apply follows_edges_refl.
    + intros H. injection H as <- <-.
      apply handlePrescriptionSubmit_inv in Hp as [_ [a [Ha ->]]].
      apply (follows_edges_update _ _ (set_completed_with _) _ Ha).
      apply shownToDoctor_spec in Hsh as [a0 [Ha0 [_ Hs]]].
      rewrite Ha in Ha0. injection Ha0 as <-.
      unfold opt_str_eqb in Hsel. destruct (selectedAppointment ds) as [s|] eqn:Hs0;
        [|discriminate].
      apply String.eqb_eq in Hsel. subst s.
      destruct (Hinv id Hs0) as [a1 [Ha1 Hs1]]. rewrite Ha in Ha1. injection Ha1 as <-.
      simpl. right. simpl in Hs.
      destruct Hs1 as [Hs1|Hs1]; rewrite Hs1 in Hs |- *;
        [constructor | destruct Hs as [Hs|[Hs|[]]]; discriminate].
  - intros H. injection H as <- <-. apply follows_edges_refl.
Qed.

Lemma handleSubmit_new_record (db : store) doctors profile today now sd d t n a :
  handleSubmit db doctors profile today now sd d t n = inr a ->
  status_of a = Pending /\ prescription_of a = None /\ feedback_of a = None.
Proof.
  unfold handleSubmit.
  destruct (Nat.leb _ _); [discriminate|].
  destruct (_ || _ || _); [discriminate|].
  destruct (str_ltb d today); [discriminate|].
  destruct (List.find _ _); [|discriminate].
  intros H. injection H as <-. auto.
Qed.

Lemma book_new_record (db : store) newId doctors profile today now sd d t n db' :
  book db newId doctors profile today now sd d t n = inr db' ->
  exists a, db' = <[newId := a]> db /\
    status_of a = Pending /\ prescription_of a = None /\ feedback_of a = None.
Proof.
  unfold book. destruct (handleSubmit _ _ _ _ _ _ _ _ _) as [e|a] eqn:Hh; [discriminate|].
  intros H. injection H as <-. exists a. split; [reflexivity|].
  exact (handleSubmit_new_record _ _ _ _ _ _ _ _ _ _ Hh).
Qed.

Lemma handleFeedbackSubmit_cases id (fd : feedbackMap) (db : store) :
  handleFeedbackSubmit id fd db = (fd, db) \/
  exists fb a, fd !! id = Some fb /\ rating fb <> 0%Z /\ db !! id = Some a /\
    handleFeedbackSubmit id fd db = (delete id fd, <[id := set_feedback fb a]> db).
Proof.
  unfold handleFeedbackSubmit.
  destruct (fd !! id) as [fb|] eqn:Hfb; [|auto].
  destruct (Z.eqb_spec (rating fb) 0); [auto|].
  unfold updateDoc. destruct (db !! id) as [a|] eqn:Ha; [|auto].
  right. exists fb, a. auto.
Qed.

Lemma patientStep_follows ps (db : store) ev ps' db' :
  patientStep ps db ev = Some (ps', db') -> follows_edges db db'.
Proof.
  destruct ev as [id star|id text|id|newId doctors today now sd d t n]; simpl.
  - destruct (_ && _ && _); [|discriminate].
    intros H. injection H as <- <-. apply follows_edges_refl.
  - destruct (feedbackFormShown _ db id); [|discriminate].
    intros H. injection H as <- <-. apply follows_edges_refl.
  - destruct (_ && _); [|discriminate].
    destruct (handleFeedbackSubmit_cases id (feedbackData ps) db)
      as [Heq | [fb [a [_ [_ [Ha Heq]]]]]]; rewrite Heq;
      intros H; injection H as <- <-.
    + apply follows_edges_refl.
    + apply (follows_edges_update _ _ (set_feedback fb) _ Ha). left. reflexivity.
  - destruct (db !! newId) eqn:Hfresh; [discriminate|].
    destruct (book _ _ _ _ _ _ _ _ _ _) as [e|db1] eqn:Hb;
      intros H; injection H as <- <-.
    + apply follows_edges_refl.
    + apply book_new_record in Hb as [a [-> [Hs _]]].
      exact (follows_edges_fresh _ _ _ Hfresh Hs).
Qed.

(* ------------------------------------------------------------------ *)
(** ** Invariants of the reachable states *)

(** A document is completed exactly when it has a prescription; a
    feedback only sits on a completed document and rates 1..5. *)
Definition rec_inv (a : appointment) : Prop :=
  (status_of a = Completed <-> prescription_of a <> None) /\
  (forall fb, feedback_of a = Some fb -> status_of a = Completed /\ (1 <= rating fb <= 5)%Z).

Definition db_inv (db : store) : Prop := forall id a, db !! id = Some a -> rec_inv a.

(** The ratings of pending feedback entries are between 0 and 5. *)
Definition patient_inv (ps : patientSession) : Prop :=
  forall id fb, feedbackData ps !! id = Some fb -> (0 <= rating fb <= 5)%Z.

Definition sys_inv (s : system) : Prop :=
  db_inv (db_of s) /\ Forall (doctor_inv (db_of s)) (doctorSessions s) /\
  Forall patient_inv (patientSessions s).

Lemma db_inv_insert (db : store) id b : db_inv db -> rec_inv b -> db_inv (<[id := b]> db).
Proof.
  intros Hdb Hb id' a Ha. destruct (decide (id = id')) as [<-|Hne].
  - rewrite lookup_insert_eq in Ha. congruence.
  - rewrite lookup_insert_ne in Ha by exact Hne. exact (Hdb id' a Ha).
Qed.

(** A record that is not completed has neither prescription nor feedback. *)
Lemma rec_inv_not_completed a :
  rec_inv a -> status_of a <> Completed ->
  prescription_of a = None /\ feedback_of a = None.
Proof.
  intros [Hp Hf] Hs. split.
  - destruct (prescription_of a) as [p|]; [|reflexivity].
    exfalso. apply Hs, Hp. discriminate.
  - destruct (feedback_of a) as [fb|] eqn:E; [|reflexivity].
    exfalso. apply Hs. exact (proj1 (Hf fb eq_refl)).
Qed.

Lemma rec_inv_set_status a s :
  rec_inv a -> status_of a <> Completed -> s <> Completed -> rec_inv (set_status s a).
Proof.
  intros Ha Hs Hs'. destruct (rec_inv_not_completed a Ha Hs) as [Hp Hf].
  split; simpl.
  - rewrite Hp. split; [contradiction|]. intros H. exfalso. apply H. reflexivity.
  - rewrite Hf. discriminate.
Qed.

Lemma doctorStep_inv ds (db : store) ev ds' db' :
  db_inv db -> doctor_inv db ds -> doctorStep ds db ev = Some (ds', db') ->
  db_inv db' /\ doctor_inv db' ds'.
Proof.
  intros Hdb Hds Hstep.
  pose proof (doctorStep_follows _ _ _ _ _ Hds Hstep) as Hfol.
  revert Hstep. destruct ev as [id|id|id|id|pd|id|]; simpl.
  - destruct (shownToDoctor _ db id [Pending]) eqn:Hsh; [|discriminate].
    apply shownToDoctor_spec in Hsh as [a [Ha [_ [Hs|[]]]]].
    intros H. injection H as <- <-. rewrite (updateAppointmentStatus_ok _ _ _ _ Ha) in Hfol |- *.
    split; [|exact (doctor_inv_follows _ _ _ Hds Hfol)].
    apply db_inv_insert; [exact Hdb|].
    apply rec_inv_set_status; [exact (Hdb _ _ Ha)| rewrite <- Hs | ]; discriminate.
  - destruct (shownToDoctor _ db id [Pending]) eqn:Hsh; [|discriminate].
    apply shownToDoctor_spec in Hsh as [a [Ha [_ [Hs|[]]]]].
    intros H. injection H as <- <-. rewrite (updateAppointmentStatus_ok _ _ _ _ Ha) in Hfol |- *.
    split; [|exact (doctor_inv_follows _ _ _ Hds Hfol)].
    apply db_inv_insert; [exact Hdb|].
    apply rec_inv_set_status; [exact (Hdb _ _ Ha)| rewrite <- Hs | ]; discriminate.
  - destruct (shownToDoctor _ db id [Confirmed]) eqn:Hsh; [|discriminate].
    apply shownToDoctor_spec in Hsh as [a [Ha [_ [Hs|[]]]]].
    intros H. injection H as <- <-. rewrite (updateAppointmentStatus_ok _ _ _ _ Ha) in Hfol |- *.
    split; [|exact (doctor_inv_follows _ _ _ Hds Hfol)].
    apply db_inv_insert; [exact Hdb|].
    apply rec_inv_set_status; [exact (Hdb _ _ Ha)| rewrite <- Hs | ]; discriminate.
  - destruct (shownToDoctor _ db id [InProgress]) eqn:Hsh; [|discriminate].
    apply shownToDoctor_spec in Hsh as [a [Ha [_ [Hs|[]]]]].
    intros H. injection H as <- <-. split; [exact Hdb|].
    intros id' Hsel. simpl in Hsel. injection Hsel as <-. eauto.
  - intros H. injection H as <- <-. split; [exact Hdb|]. exact Hds.
  - destruct (opt_str_eqb (selectedAppointment ds) id) eqn:Hsel; [|discriminate].
    destruct (shownToDoctor _ db id [Confirmed; InProgress]) eqn:Hsh; [|discriminate].
    simpl.
    destruct (handlePrescriptionSubmit id (prescriptionData ds) db) as [e|db1] eqn:Hp.
    + intros H. injection H as <- <-. split; [exact Hdb | exact Hds].
    + intros H. injection H as <- <-.
      split; [|intros id' Hs'; discriminate].
      apply handlePrescriptionSubmit_inv in Hp as [_ [a [Ha ->]]].
      apply db_inv_insert; [exact Hdb|].
      apply shownToDoctor_spec in Hsh as [a0 [Ha0 [_ Hs]]].
      rewrite Ha in Ha0. injection Ha0 as <-.
      assert (Hnc : status_of a <> Completed)
        by (simpl in Hs; destruct Hs as [Hs|[Hs|[]]]; rewrite <- Hs; discriminate).
      destruct (rec_inv_not_completed a (Hdb _ _ Ha) Hnc) as [_ Hf].
      split; simpl.
      * split; [discriminate | reflexivity].
      * rewrite Hf. discriminate.
  - intros H. injection H as <- <-. split; [exact Hdb|].
    intros id' Hs'. discriminate.
Qed.

Lemma rating_or_zero_range (o : option feedback) :
  (forall fb, o = Some fb -> (0 <= rating fb <= 5)%Z) ->
  (0 <= rating_or_zero o <= 5)%Z.
Proof.
  intros H. unfold rating_or_zero. destruct o as [p|]; [|lia].
  destruct (Z.eqb_spec (rating p) 0); [lia|]. exact (H p eq_refl).
Qed.

Lemma updateFeedback_inv id field value (fd : feedbackMap) :
  (forall id' fb, fd !! id' = Some fb -> (0 <= rating fb <= 5)%Z) ->
  forall id' fb, updateFeedback id field value fd !! id' = Some fb -> (0 <= rating fb <= 5)%Z.
Proof.
  intros H id' fb. unfold updateFeedback. destruct (decide (id = id')) as [<-|Hne].
  - rewrite lookup_insert_eq. intros E. injection E as <-. simpl.
    apply rating_or_zero_range. intros fb0. apply H.
  - rewrite lookup_insert_ne by exact Hne. apply H.
Qed.

Lemma feedbackFormShown_spec puid (db : store) id :
  feedbackFormShown puid db id = true ->
  exists a, db !! id = Some a /\ patientId a = puid /\ status_of a = Completed /\
            feedback_of a = None.
Proof.
  unfold feedbackFormShown. destruct (db !! id) as [a|]; [|discriminate].
  intros H. apply andb_true_iff in H as [H H3]. apply andb_true_iff in H as [H1 H2].
  apply String.eqb_eq in H1. unfold status_eqb in H2. apply bool_decide_eq_true in H2.
  destruct (feedback_of a) eqn:Hf; [discriminate|].
  exists a. auto.
Qed.

Lemma patientStep_inv ps (db : store) ev ps' db' :
  db_inv db -> patient_inv ps -> patientStep ps db ev = Some (ps', db') ->
  db_inv db' /\ patient_inv ps'.
Proof.
  intros Hdb Hps. destruct ev as [id star|id text|id|newId doctors today now sd d t n]; simpl.
  - destruct (_ && _ && _); [|discriminate].
    intros H. injection H as <- <-. split; [exact Hdb|].
    unfold patient_inv; simpl. apply updateFeedback_inv. exact Hps.
  - destruct (feedbackFormShown _ db id); [|discriminate].
    intros H. injection H as <- <-. split; [exact Hdb|].
    unfold patient_inv; simpl. apply updateFeedback_inv. exact Hps.
  - destruct (feedbackFormShown _ db id) eqn:Hsh; [|discriminate]. simpl.
    destruct (negb _); [|discriminate].
    apply feedbackFormShown_spec in Hsh as [a0 [Ha0 [_ [Hs0 Hf0]]]].
    destruct (handleFeedbackSubmit_cases id (feedbackData ps) db)
      as [Heq | [fb [a [Hfb [Hnz [Ha Heq]]]]]]; rewrite Heq;
      intros H; injection H as <- <-.
    + split; [exact Hdb|]. exact Hps.
    + rewrite Ha in Ha0. injection Ha0 as <-.
      split.
      * apply db_inv_insert; [exact Hdb|].
        destruct (Hdb _ _ Ha) as [Hp _].
        split; simpl.
        -- exact Hp.
        -- intros fb' E. injection E as <-. split; [exact Hs0|].
           pose proof (Hps id fb Hfb). lia.
      * intros id' fb' Hl. simpl in Hl.
        destruct (decide (id = id')) as [<-|Hne].
        -- rewrite lookup_delete_eq in Hl. discriminate.
        -- rewrite lookup_delete_ne in Hl by exact Hne. exact (Hps id' fb' Hl).
  - destruct (db !! newId) eqn:Hfresh; [discriminate|].
    destruct (book _ _ _ _ _ _ _ _ _ _) as [e|db1] eqn:Hb;
      intros H; injection H as <- <-.
    + split; [exact Hdb | exact Hps].
    + apply book_new_record in Hb as [a [-> [Hs [Hp Hf]]]].
      split; [|exact Hps].
      apply db_inv_insert; [exact Hdb|]. split.
      * rewrite Hs, Hp. split; [discriminate|]. intros H. exfalso. apply H. reflexivity.
      * rewrite Hf. discriminate.
Qed.

Lemma sys_inv_step s ev s' : sys_inv s -> sys_step s ev = Some s' -> sys_inv s'.
Proof.
  intros [Hdb [Hds Hps]]. destruct ev as [k e|k e]; simpl.
  - destruct (doctorSessions s !! k) as [ds|] eqn:Hk; [|discriminate].
    destruct (doctorStep ds (db_of s) e) as [[ds' db']|] eqn:Hst; [|discriminate].
    intros H. injection H as <-.
    pose proof (Forall_lookup_1 _ _ _ _ Hds Hk) as Hd.
    destruct (doctorStep_inv _ _ _ _ _ Hdb Hd Hst) as [Hdb' Hd'].
    pose proof (doctorStep_follows _ _ _ _ _ Hd Hst) as Hfol.
    split; [exact Hdb'|]. split; simpl; [|exact Hps].
    apply Forall_insert; [|exact Hd'].
    eapply Forall_impl; [exact Hds|]. intros x Hx. exact (doctor_inv_follows _ _ _ Hx Hfol).
  - destruct (patientSessions s !! k) as [ps|] eqn:Hk; [|discriminate].
    destruct (patientStep ps (db_of s) e) as [[ps' db']|] eqn:Hst; [|discriminate].
    intros H. injection H as <-.
    pose proof (Forall_lookup_1 _ _ _ _ Hps Hk) as Hp.
    destruct (patientStep_inv _ _ _ _ _ Hdb Hp Hst) as [Hdb' Hp'].
    pose proof (patientStep_follows _ _ _ _ _ Hst) as Hfol.
    split; [exact Hdb'|]. split; simpl.
    + eapply Forall_impl; [exact Hds|]. intros x Hx. exact (doctor_inv_follows _ _ _ Hx Hfol).
    + apply Forall_insert; [exact Hps | exact Hp'].
Qed.

Lemma reachable_inv s : reachable s -> sys_inv s.
Proof.
  induction 1 as [dus ps | s ev s' _ IH Hst].
  - split; [|split]; simpl.
    + intros id a H. rewrite lookup_empty in H. discriminate.
    + apply List.Forall_forall. intros x Hx. apply in_map_iff in Hx as [d [<- _]].
      intros id H. discriminate.
    + apply List.Forall_forall. intros x Hx. apply in_map_iff in Hx as [p [<- _]].
      intros id fb H. simpl in H. rewrite lookup_empty in H. discriminate.
  - exact (sys_inv_step _ _ _ IH Hst).
Qed.

Lemma sys_step_follows s ev s' :
  sys_inv s -> sys_step s ev = Some s' -> follows_edges (db_of s) (db_of s').
Proof.
  intros [_ [Hds _]]. destruct ev as [k e|k e]; simpl.
  - destruct (doctorSessions s !! k) as [ds|] eqn:Hk; [|discriminate].
    destruct (doctorStep ds (db_of s) e) as [[ds' db']|] eqn:Hst; [|discriminate].
    intros H. injection H as <-. simpl.
    exact (doctorStep_follows _ _ _ _ _ (Forall_lookup_1 _ _ _ _ Hds Hk) Hst).
  - destruct (patientSessions s !! k) as [ps|] eqn:Hk; [|discriminate].
    destruct (patientStep ps (db_of s) e) as [[ps' db']|] eqn:Hst; [|discriminate].
    intros H. injection H as <-. simpl.
    exact (patientStep_follows _ _ _ _ _ Hst).
Qed.

(** Prescriptions of existing documents are left as they were. *)
Definition same_prescriptions (db db' : store) : Prop :=
  forall id a a', db !! id = Some a -> db' !! id = Some a' ->
    prescription_of a' = prescription_of a.

Lemma same_prescriptions_refl (db : store) : same_prescriptions db db.
Proof. intros id a a' H1 H2. congruence. Qed.

Lemma same_prescriptions_update (db : store) id (f : appointment -> appointment) a :
  db !! id = Some a -> prescription_of (f a) = prescription_of a ->
  same_prescriptions db (<[id := f a]> db).
Proof.
  intros Ha Hp id' b b' Hb Hb'. destruct (decide (id = id')) as [<-|Hne].
  - rewrite lookup_insert_eq in Hb'. congruence.
  - rewrite lookup_insert_ne in Hb' by exact Hne. congruence.
Qed.

Lemma same_prescriptions_fresh (db : store) id b :
  db !! id = None -> same_prescriptions db (<[id := b]> db).
Proof.
  intros Hf id' a a' Ha Ha'. destruct (decide (id = id')) as [<-|Hne].
  - congruence.
  - rewrite lookup_insert_ne in Ha' by exact Hne. congruence.
Qed.

Lemma patientStep_prescriptions ps (db : store) ev ps' db' :
  patientStep ps db ev = Some (ps', db') -> same_prescriptions db db'.
Proof.
  destruct ev as [id star|id text|id|newId doctors today now sd d t n]; simpl.
  - destruct (_ && _ && _); [|discriminate].
    intros H. injection H as <- <-. apply same_prescriptions_refl.
  - destruct (feedbackFormShown _ db id); [|discriminate].
    intros H. injection H as <- <-. apply same_prescriptions_refl.
  - destruct (_ && _); [|discriminate].
    destruct (handleFeedbackSubmit_cases id (feedbackData ps) db)
      as [Heq | [fb [a [_ [_ [Ha Heq]]]]]]; rewrite Heq;
      intros H; injection H as <- <-.
    + apply same_prescriptions_refl.
    + exact (same_prescriptions_update _ _ (set_feedback fb) _ Ha eq_refl).
  - destruct (db !! newId) eqn:Hfresh; [discriminate|].
    destruct (book _ _ _ _ _ _ _ _ _ _) as [e|db1] eqn:Hb;
      intros H; injection H as <- <-.
    + apply same_prescriptions_refl.
    + apply book_new_record in Hb as [a [-> _]].
      exact (same_prescriptions_fresh _ _ _ Hfresh).
Qed.

Lemma doctorStep_prescriptions ds (db : store) ev ds' db' id a a' :
  doctorStep ds db ev = Some (ds', db') ->
  db !! id = Some a -> db' !! id = Some a' ->
  prescription_of a' <> prescription_of a -> ev = ClickComplete id.
Proof.
  intros Hstep Ha Ha' Hne.
  assert (Hstatus : forall st id0 b, db !! id0 = Some b ->
            db' = keep_store (updateAppointmentStatus id0 st db) db -> False).
  { intros st id0 b Hb ->. rewrite (updateAppointmentStatus_ok _ _ _ _ Hb) in Ha'. simpl in Ha'.
    apply Hne. exact (same_prescriptions_update _ _ (set_status st) _ Hb eq_refl _ _ _ Ha Ha'). }
  revert Hstep. destruct ev as [id0|id0|id0|id0|pd|id0|]; simpl.
  - destruct (shownToDoctor _ db id0 _) eqn:Hsh; [|discriminate].
    apply shownToDoctor_spec in Hsh as [b [Hb _]].
    intros H. injection H as <- Hdb. exfalso. exact (Hstatus _ _ _ Hb (eq_sym Hdb)).
  - destruct (shownToDoctor _ db id0 _) eqn:Hsh; [|discriminate].
    apply shownToDoctor_spec in Hsh as [b [Hb _]].
    intros H. injection H as <- Hdb. exfalso. exact (Hstatus _ _ _ Hb (eq_sym Hdb)).
  - destruct (shownToDoctor _ db id0 _) eqn:Hsh; [|discriminate].
    apply shownToDoctor_spec in Hsh as [b [Hb _]].
    intros H. injection H as <- Hdb. exfalso. exact (Hstatus _ _ _ Hb (eq_sym Hdb)).
  - destruct (shownToDoctor _ db id0 _); [|discriminate].
    intros H. injection H as <- <-. congruence.
  - intros H. injection H as <- <-. congruence.
  - destruct (_ && _); [|discriminate].
    destruct (handlePrescriptionSubmit id0 (prescriptionData ds) db) as [e|db1] eqn:Hp.
    + intros H. injection H as <- <-. congruence.
    + intros H. injection H as <- <-.
      apply handlePrescriptionSubmit_inv in Hp as [_ [b [Hb ->]]].
      destruct (decide (id0 = id)) as [<-|Hne0]; [reflexivity|].
      rewrite lookup_insert_ne in Ha' by exact Hne0. congruence.
  - intros H. injection H as <- <-. congruence.
Qed.

Lemma reachable_run s evs : reachable s -> reachable (run_events s evs).
Proof.
  revert s. induction evs as [|ev evs IH]; intros s Hs; simpl; [exact Hs|].
  apply IH. destruct (sys_step s ev) as [s'|] eqn:E; [|exact Hs].
  exact (reach_step _ _ _ Hs E).
Qed.

Lemma state1_reachable : reachable state1.
Proof. apply reachable_run. apply reach_init. Qed.

Lemma state5_reachable : reachable state5.
Proof. apply reachable_run, reachable_run, reachable_run. apply reach_init. Qed.

(* ------------------------------------------------------------------ *)
(** ** What one step with lagging snapshots does to a document *)

Lemma keep_update_status_lookup id' st (db : store) id :
  keep_store (updateAppointmentStatus id' st db) db !! id = db !! id \/
  (id = id' /\ exists a, db !! id = Some a /\
     keep_store (updateAppointmentStatus id' st db) db !! id = Some (set_status st a)).
Proof.
  unfold updateAppointmentStatus, updateDoc.
  destruct (db !! id') as [a|] eqn:Ha; simpl; [|left; reflexivity].
  destruct (decide (id' = id)) as [<-|Hne].
  - right. split; [reflexivity|]. exists a. split; [exact Ha|]. apply lookup_insert_eq.
  - left. apply lookup_insert_ne. exact Hne.
Qed.

Ltac guarded_status_write Hk Hsh Hlk id :=
  destruct Hlk as [Heq | [Hid [a [Ha Ha']]]];
  [left; exact Heq|]; subst id;
  apply shownToDoctor_spec in Hsh as [b [Hb [Hd Hs]]];
  right; left; do 7 eexists;
  split; [reflexivity|]; split; [exact Hk|]; split; [exact Hb|]; split; [exact Hd|];
  split; [exact Ha|]; split; [exact Ha'|];
  simpl in Hs; destruct Hs as [Hs|[]]; unfold doctor_write.

(** A step leaves document [id] as it was, or it is a doctor's click whose
    tab shows the document as [doctor_write] requires, or the submission
    of a non-zero feedback entry for it, or the booking that creates it. *)
Lemma lstep_lookup ls lev ls' id :
  lstep ls lev = Some ls' ->
  l_db ls' !! id = l_db ls !! id \/
  (exists k e ds snap b a a', lev = LDoctorAct k e /\ l_doctors ls !! k = Some (ds, snap) /\
     snap !! id = Some b /\ doctorId b = ds_uid ds /\
     l_db ls !! id = Some a /\ l_db ls' !! id = Some a' /\ doctor_write ds e id b a a') \/
  (exists k ps snap fb a, lev = LPatientAct k (ClickSubmitFeedback id) /\
     l_patients ls !! k = Some (ps, snap) /\ feedbackData ps !! id = Some fb /\
     rating fb <> 0%Z /\ l_db ls !! id = Some a /\ l_db ls' !! id = Some (set_feedback fb a)) \/
  (exists a', l_db ls !! id = None /\ l_db ls' !! id = Some a' /\
     status_of a' = Pending /\ prescription_of a' = None /\ feedback_of a' = None).
Proof.
  destruct lev as [k e|k e|k|k]; simpl.
  - destruct (l_doctors ls !! k) as [[ds snap]|] eqn:Hk; [|discriminate].
    destruct (doctorStepLag ds snap (l_db ls) e) as [[[ds' snap'] db']|] eqn:Hst;
      [|discriminate].
    intros H. injection H as <-. simpl.
    destruct e as [id0|id0|id0|id0|pd|id0|]; simpl in Hst.
    + destruct (shownToDoctor _ snap id0 _) eqn:Hsh; [|discriminate].
      injection Hst as <- <- <-.
      guarded_status_write Hk Hsh (keep_update_status_lookup id0 Confirmed (l_db ls) id) id.
      left. auto.
    + destruct (shownToDoctor _ snap id0 _) eqn:Hsh; [|discriminate].
      injection Hst as <- <- <-.
      guarded_status_write Hk Hsh (keep_update_status_lookup id0 Cancelled (l_db ls) id) id.
      right. left. auto.
    + destruct (shownToDoctor _ snap id0 _) eqn:Hsh; [|discriminate].
      injection Hst as <- <- <-.
      guarded_status_write Hk Hsh (keep_update_status_lookup id0 InProgress (l_db ls) id) id.
      right. right. left. auto.
    + destruct (shownToDoctor _ snap id0 _); [|discriminate].
      injection Hst as <- <- <-. left. reflexivity.
    + injection Hst as <- <- <-. left. reflexivity.
    + destruct (opt_str_eqb (selectedAppointment ds) id0) eqn:Hsel; [|discriminate].
      destruct (shownToDoctor _ snap id0 _) eqn:Hsh; [|discriminate]. simpl in Hst.
      destruct (handlePrescriptionSubmit id0 (prescriptionData ds) (l_db ls))
        as [err|db1] eqn:Hp; injection Hst as <- <- <-; [left; reflexivity|].
      apply handlePrescriptionSubmit_inv in Hp as [Hm [a [Ha ->]]].
      destruct (decide (id0 = id)) as [<-|Hne].
      * apply shownToDoctor_spec in Hsh as [b [Hb [Hd Hs]]].
        unfold opt_str_eqb in Hsel.
        destruct (selectedAppointment ds) as [s0|] eqn:Hs0; [|discriminate].
        apply String.eqb_eq in Hsel. subst s0.
        right. left. do 7 eexists.
        split; [reflexivity|]. split; [exact Hk|]. split; [exact Hb|]. split; [exact Hd|].
        split; [exact Ha|]. split; [apply lookup_insert_eq|].
        right. right. right. simpl in Hs.
        repeat split; auto. destruct Hs as [Hs|[Hs|[]]]; auto.
      * left. apply lookup_insert_ne. exact Hne.
    + injection Hst as <- <- <-. left. reflexivity.
  - destruct (l_patients ls !! k) as [[ps snap]|] eqn:Hk; [|discriminate].
    destruct (patientStepLag ps snap (l_db ls) e) as [[[ps' snap'] db']|] eqn:Hst;
      [|discriminate].
    intros H. injection H as <-. simpl.
    destruct e as [id0 star|id0 text|id0|newId doctors today now sd d t n]; simpl in Hst.
    + destruct (_ && _ && _); [|discriminate]. injection Hst as <- <- <-. left. reflexivity.
    + destruct (feedbackFormShown _ snap id0); [|discriminate].
      injection Hst as <- <- <-. left. reflexivity.
    + destruct (_ && _); [|discriminate].
      destruct (handleFeedbackSubmit_cases id0 (feedbackData ps) (l_db ls))
        as [Heq | [fb [a [Hfb [Hnz [Ha Heq]]]]]];
        rewrite Heq in Hst; simpl in Hst; injection Hst as <- <- <-; [left; reflexivity|].
      destruct (decide (id0 = id)) as [<-|Hne].
      * right. right. left. exists k, ps, snap, fb, a.
        repeat split; auto. apply lookup_insert_eq.
      * left. apply lookup_insert_ne. exact Hne.
    + destruct (l_db ls !! newId) eqn:Hfresh; [discriminate|].
      destruct (handleSubmit snap doctors _ today now sd d t n) as [err|a] eqn:Hh;
        injection Hst as <- <- <-; [left; reflexivity|].
      destruct (decide (newId = id)) as [<-|Hne].
      * right. right. right. exists a. rewrite lookup_insert_eq.
        destruct (handleSubmit_new_record _ _ _ _ _ _ _ _ _ _ Hh) as (? & ? & ?). auto.
      * left. apply lookup_insert_ne. exact Hne.
  - destruct (l_doctors ls !! k) as [[ds snap]|]; [|discriminate].
    intros H. injection H as <-. left. reflexivity.
  - destruct (l_patients ls !! k) as [[ps snap]|]; [|discriminate].
    intros H. injection H as <-. left. reflexivity.
Qed.

Lemma lreachable_run ls evs : lreachable ls -> lreachable (lrun ls evs).
Proof.
  revert ls. induction evs as [|ev evs IH]; intros ls Hs; simpl; [exact Hs|].
  apply IH. destruct (lstep ls ev) as [ls'|] eqn:E; [|exact Hs].
  exact (lreach_step _ _ _ Hs E).
Qed.

Lemma declinedInTab0_lreachable : lreachable declinedInTab0.
Proof. apply lreachable_run, lreachable_run. apply lreach_init. Qed.

Lemma completedInTab0_lreachable : lreachable completedInTab0.
Proof. apply lreachable_run, lreachable_run, lreachable_run. apply lreach_init. Qed.

Lemma feedbackFormOpen_lreachable : lreachable feedbackFormOpen.
Proof. apply lreachable_run. exact completedInTab0_lreachable. Qed.

(** With lagging snapshots every completed document still carries a
    prescription. *)
Lemma lreachable_completed_prescription ls :
  lreachable ls ->
  forall id a, l_db ls !! id = Some a -> status_of a = Completed -> prescription_of a <> None.
Proof.
  induction 1 as [dus ps | ls lev ls' _ IH Hst]; intros id a Ha Hs.
  - simpl in Ha. rewrite lookup_empty in Ha. discriminate.
  - destruct (lstep_lookup _ _ _ id Hst)
      as [Heq | [(k & e & ds & snap & b & a0 & a1 & _ & _ & _ & _ & Ha0 & Ha1 & Hw)
               | [(k & ps & snap & fb & a0 & _ & _ & _ & _ & Ha0 & Ha1)
                  | (a1 & _ & Ha1 & Hp & _ & _)]]].
    + rewrite Heq in Ha. exact (IH id a Ha Hs).
    + rewrite Ha in Ha1. injection Ha1 as ->.
      destruct Hw as [(_ & _ & ->) | [(_ & _ & ->) | [(_ & _ & ->) | (_ & _ & _ & _ & ->)]]];
        simpl in *; congruence.
    + rewrite Ha in Ha1. injection Ha1 as ->. exact (IH id a0 Ha0 Hs).
    + rewrite Ha in Ha1. injection Ha1 as ->. congruence.
Qed.

(* ------------------------------------------------------------------ *)
(** ** C2: the status workflow *)

(** C2 (amended): [updateAppointmentStatus], the handler behind Accept,
    Decline and Start, writes the requested status on any existing
    document without reading its current status (there is no
    InvalidTransition error). The dashboard renders Accept/Decline only on
    cards its snapshot shows pending, Start only on confirmed ones and
    'Complete Appointment' only on the confirmed or in-progress card whose
    form is open. While snapshots are current, every step moves each
    document along pending→confirmed, pending→cancelled,
    confirmed→in-progress or in-progress→completed or leaves its status as
    it was, and creates documents only as pending. With lagging snapshots
    every status change is still a doctor's click on a card of theirs that
    the tab's snapshot shows in the source status of that click, whatever
    the stored status is. *)
Theorem workflow_edges_enforced_by_dashboard :
  (forall (id : string) (st : status) (db : store) (a : appointment),
     db !! id = Some a ->
     updateAppointmentStatus id st db = inr (<[id := set_status st a]> db)) /\
  (forall (s : system) (ev : event) (s' : system),
     reachable s -> sys_step s ev = Some s' -> follows_edges (db_of s) (db_of s')) /\
  (forall (ls : lsystem) (lev : levent) (ls' : lsystem) (id : string) (a a' : appointment),
     lstep ls lev = Some ls' -> l_db ls !! id = Some a -> l_db ls' !! id = Some a' ->
     status_of a' <> status_of a ->
     exists k e ds snap b, lev = LDoctorAct k e /\ l_doctors ls !! k = Some (ds, snap) /\
       snap !! id = Some b /\ doctorId b = ds_uid ds /\ doctor_write ds e id b a a').
Proof.
  split; [exact updateAppointmentStatus_ok|]. split.
  - intros s ev s' Hr Hst. exact (sys_step_follows _ _ _ (reachable_inv _ Hr) Hst).
  - intros ls lev ls' id a a' Hst Ha Ha' Hne.
    destruct (lstep_lookup _ _ _ id Hst)
      as [Heq | [(k & e & ds & snap & b & a0 & a1 & Hev & Hk & Hb & Hd & Ha0 & Ha1 & Hw)
               | [(k & ps & snap & fb & a0 & _ & _ & _ & _ & Ha0 & Ha1)
                  | (a1 & Hnone & _)]]].
    + congruence.
    + rewrite Ha in Ha0. injection Ha0 as <-. rewrite Ha' in Ha1. injection Ha1 as <-.
      exists k, e, ds, snap, b. auto.
    + rewrite Ha in Ha0. injection Ha0 as <-. rewrite Ha' in Ha1. injection Ha1 as ->.
      exfalso. apply Hne. reflexivity.
    + congruence.
Qed.

Lemma workflow_edges_enforced_by_dashboard_witness :
  reachable state1 /\ sys_step state1 acceptEvent = Some state2 /\
  follows_edges (db_of state1) (db_of state2).
Proof.
  split; [exact state1_reachable|].
  split; [vm_compute; reflexivity|].
  apply (proj1 (proj2 workflow_edges_enforced_by_dashboard) state1 acceptEvent state2).
  - exact state1_reachable.
  - vm_compute. reflexivity.
Defined.

(** C2 counterexample: Bo has the dashboard open in two tabs. After Ana's
    booking both tabs show the visit pending; Bo declines it in tab 0, and
    tab 1, whose snapshot still shows it pending, accepts it: the
    cancelled visit becomes confirmed. *)
Lemma workflow_stale_tab_counterexample :
  lreachable declinedInTab0 /\
  status_of <$> (l_db declinedInTab0 !! "a1"%string) = Some Cancelled /\
  exists ls', lstep declinedInTab0 (LDoctorAct 1 (ClickAccept "a1")) = Some ls' /\
              status_of <$> (l_db ls' !! "a1"%string) = Some Confirmed.
Proof.
  split; [exact declinedInTab0_lreachable|].
  split; [vm_compute; reflexivity|].
  eexists. split; [vm_compute; reflexivity|]. vm_compute. reflexivity.
Qed.

(* ------------------------------------------------------------------ *)
(** ** C3: prescriptions *)

(** C3 (amended): [handlePrescriptionSubmit] refuses a medicine that is
    empty after [trim] with the missing-medicine message and writes
    nothing; otherwise it writes [status = completed] and the prescription
    in one [updateDoc] on any existing document, without reading its
    stored status. The form opens from 'Add Prescription' on cards the
    tab's snapshot shows in progress. While snapshots are current, a step
    completes only in-progress documents; with lagging snapshots a tab can
    complete a document that is already completed, replacing its
    prescription. Bookings create documents without a prescription, the
    'Complete Appointment' click is the only step that changes the
    prescription of a document, and every completed document has one. *)
Theorem prescription_written_with_completion :
  (forall (id : string) (pd : prescription) (db : store),
     is_empty (trim (medicine pd)) = true ->
     handlePrescriptionSubmit id pd db = inl MissingMedicineMsg) /\
  (forall (id : string) (pd : prescription) (db : store) (a : appointment),
     db !! id = Some a -> is_empty (trim (medicine pd)) = false ->
     handlePrescriptionSubmit id pd db = inr (<[id := set_completed_with pd a]> db)) /\
  (forall (s : system) (ev : event) (s' : system) (id : string) (a a' : appointment),
     reachable s -> sys_step s ev = Some s' ->
     db_of s !! id = Some a -> db_of s' !! id = Some a' ->
     status_of a <> Completed -> status_of a' = Completed -> status_of a = InProgress) /\
  (forall (ls : lsystem), lreachable ls ->
     forall (id : string) (a : appointment), l_db ls !! id = Some a ->
       status_of a = Completed -> prescription_of a <> None) /\
  (forall (ls : lsystem) (lev : levent) (ls' : lsystem) (id : string) (a' : appointment),
     lstep ls lev = Some ls' -> l_db ls !! id = None -> l_db ls' !! id = Some a' ->
     prescription_of a' = None) /\
  (forall (ls : lsystem) (lev : levent) (ls' : lsystem) (id : string) (a a' : appointment),
     lstep ls lev = Some ls' -> l_db ls !! id = Some a -> l_db ls' !! id = Some a' ->
     prescription_of a' <> prescription_of a ->
     exists k, lev = LDoctorAct k (ClickComplete id)).
Proof.
  split; [|split; [|split; [|split; [|split]]]].
  - intros id pd db H. unfold handlePrescriptionSubmit. rewrite H. reflexivity.
  - intros id pd db a Ha H. unfold handlePrescriptionSubmit, updateDoc.
    rewrite H, Ha. reflexivity.
  - intros s ev s' id a a' Hr Hst Ha Ha' Hn Hc.
    destruct (proj1 (sys_step_follows _ _ _ (reachable_inv _ Hr) Hst) id a Ha)
      as [a1 [Ha1 [Hsame | Hedge]]]; rewrite Ha' in Ha1; injection Ha1 as <-; [congruence|].
    rewrite Hc in Hedge. inversion Hedge. reflexivity.
  - exact lreachable_completed_prescription.
  - intros ls lev ls' id a' Hst Hnone Ha'.
    destruct (lstep_lookup _ _ _ id Hst)
      as [Heq | [(k & e & ds & snap & b & a0 & a1 & _ & _ & _ & _ & Ha0 & _)
               | [(k & ps & snap & fb & a0 & _ & _ & _ & _ & Ha0 & _)
                  | (a1 & _ & Ha1 & _ & Hp & _)]]]; try congruence.
  - intros ls lev ls' id a a' Hst Ha Ha' Hne.
    destruct (lstep_lookup _ _ _ id Hst)
      as [Heq | [(k & e & ds & snap & b & a0 & a1 & Hev & _ & _ & _ & Ha0 & Ha1 & Hw)
               | [(k & ps & snap & fb & a0 & _ & _ & _ & _ & Ha0 & Ha1)
                  | (a1 & Hnone & _)]]]; try congruence.
    + rewrite Ha in Ha0. injection Ha0 as <-. rewrite Ha' in Ha1. injection Ha1 as ->.
      exists k. rewrite Hev. f_equal.
      destruct Hw as [(_ & _ & ->) | [(_ & _ & ->) | [(_ & _ & ->) | (He & _)]]];
        [exfalso; apply Hne; reflexivity .. | exact He].
    + rewrite Ha in Ha0. injection Ha0 as <-. rewrite Ha' in Ha1. injection Ha1 as ->.
      exfalso. apply Hne. reflexivity.
Qed.

Lemma prescription_written_with_completion_witness :
  lreachable completedInTab0 /\
  lstep completedInTab0 (LDoctorAct 1 (ClickComplete "a1")) =
    Some (lrun completedInTab0 [LDoctorAct 1 (ClickComplete "a1")]) /\
  (exists k, LDoctorAct 1 (ClickComplete "a1") = LDoctorAct k (ClickComplete "a1")).
Proof.
  split; [exact completedInTab0_lreachable|].
  split; [vm_compute; reflexivity|].
  apply (proj2 (proj2 (proj2 (proj2 (proj2 prescription_written_with_completion))))
           completedInTab0 (LDoctorAct 1 (ClickComplete "a1"))
           (lrun completedInTab0 [LDoctorAct 1 (ClickComplete "a1")]) "a1"
           (set_completed_with amoxicillin (mkAppointment "p1" "2025-06-02" InProgress None None))
           (set_completed_with ibuprofen (mkAppointment "p1" "2025-06-02" InProgress None None))).
  - vm_compute. reflexivity.
  - vm_compute. reflexivity.
  - vm_compute. reflexivity.
  - simpl. discriminate.
Defined.

(** C3 counterexample: Bo has the completion form of Ana's in-progress
    visit open in two tabs, with amoxicillin typed in tab 0 and ibuprofen
    in tab 1. Tab 0 completes the visit; tab 1, whose snapshot still shows
    it in progress, completes the already completed visit again and
    replaces its prescription. *)
Lemma prescription_stale_tab_counterexample :
  lreachable completedInTab0 /\
  option_map (fun a => (status_of a, prescription_of a)) (l_db completedInTab0 !! "a1"%string)
    = Some (Completed, Some amoxicillin) /\
  exists ls', lstep completedInTab0 (LDoctorAct 1 (ClickComplete "a1")) = Some ls' /\
    option_map (fun a => (status_of a, prescription_of a)) (l_db ls' !! "a1"%string)
      = Some (Completed, Some ibuprofen).
Proof.
  split; [exact completedInTab0_lreachable|].
  split; [vm_compute; reflexivity|].
  eexists. split; [vm_compute; reflexivity|]. vm_compute. reflexivity.
Qed.

(* ------------------------------------------------------------------ *)
(** ** C4 and C7: feedback *)

(** [updateFeedback] keeps the entry's previous rating whatever star is
    clicked: the key [rating: prev?.rating || 0] comes after
    [[field]: value] in the object literal. *)
Lemma updateFeedback_rating id field value (fd : feedbackMap) :
  rating <$> (updateFeedback id field value fd !! id) = Some (rating_or_zero (fd !! id)).
Proof. unfold updateFeedback. rewrite lookup_insert_eq. reflexivity. Qed.

Lemma rating_or_zero_zero (o : option feedback) :
  (forall fb, o = Some fb -> rating fb = 0%Z) -> rating_or_zero o = 0%Z.
Proof.
  destruct o as [fb|]; simpl; [|reflexivity]. intros H. rewrite (H fb eq_refl). reflexivity.
Qed.

Lemma updateFeedback_zero id field value (fd : feedbackMap) :
  (forall id' fb, fd !! id' = Some fb -> rating fb = 0%Z) ->
  forall id' fb, updateFeedback id field value fd !! id' = Some fb -> rating fb = 0%Z.
Proof.
  intros H id' fb. unfold updateFeedback.
  destruct (decide (id = id')) as [<-|Hne].
  - rewrite lookup_insert_eq. intros E. injection E as <-. simpl.
    apply rating_or_zero_zero. exact (H id).
  - rewrite lookup_insert_ne by exact Hne. apply H.
Qed.

Lemma patientStepLag_zero ps (snap db : store) ev ps' snap' db' :
  (forall id fb, feedbackData ps !! id = Some fb -> rating fb = 0%Z) ->
  patientStepLag ps snap db ev = Some (ps', snap', db') ->
  forall id fb, feedbackData ps' !! id = Some fb -> rating fb = 0%Z.
Proof.
  intros Hps. destruct ev as [id star|id text|id|newId doctors today now sd d t n]; simpl.
  - destruct (_ && _ && _); [|discriminate].
    intros H. injection H as <- <- <-. simpl. apply updateFeedback_zero. exact Hps.
  - destruct (feedbackFormShown _ snap id); [|discriminate].
    intros H. injection H as <- <- <-. simpl. apply updateFeedback_zero. exact Hps.
  - rewrite (rating_or_zero_zero _ (Hps id)). simpl. rewrite andb_false_r. discriminate.
  - destruct (db !! newId); [discriminate|].
    destruct (handleSubmit _ _ _ _ _ _ _ _ _); intros H; injection H as <- <- <-; exact Hps.
Qed.

Lemma lno_feedback_step ls lev ls' : lno_feedback ls -> lstep ls lev = Some ls' -> lno_feedback ls'.
Proof.
  intros [Hdb Hps] Hst. split.
  - intros id a Ha.
    destruct (lstep_lookup _ _ _ id Hst)
      as [Heq | [(k & e & ds & snap & b & a0 & a1 & _ & _ & _ & _ & Ha0 & Ha1 & Hw)
               | [(k & ps & snap & fb & a0 & Hev & Hk & Hfb & Hnz & Ha0 & Ha1)
                  | (a1 & _ & Ha1 & _ & _ & Hf)]]].
    + rewrite Heq in Ha. exact (Hdb _ _ Ha).
    + rewrite Ha in Ha1. injection Ha1 as ->.
      destruct Hw as [(_ & _ & ->) | [(_ & _ & ->) | [(_ & _ & ->) | (_ & _ & _ & _ & ->)]]];
        exact (Hdb _ _ Ha0).
    + exfalso. pose proof (Forall_lookup_1 _ _ _ _ Hps Hk) as Hz. simpl in Hz.
      exact (Hnz (Hz id fb Hfb)).
    + rewrite Ha in Ha1. injection Ha1 as ->. exact Hf.
  - destruct lev as [k e|k e|k|k]; simpl in Hst.
    + destruct (l_doctors ls !! k) as [[ds snap]|]; [|discriminate].
      destruct (doctorStepLag ds snap (l_db ls) e) as [[[ds' snap'] db']|]; [|discriminate].
      injection Hst as <-. exact Hps.
    + destruct (l_patients ls !! k) as [[ps snap]|] eqn:Hk; [|discriminate].
      destruct (patientStepLag ps snap (l_db ls) e) as [[[ps' snap'] db']|] eqn:Hp;
        [|discriminate].
      injection Hst as <-. simpl. apply Forall_insert; [exact Hps|]. simpl.
      pose proof (Forall_lookup_1 _ _ _ _ Hps Hk) as Hz. simpl in Hz.
      exact (patientStepLag_zero _ _ _ _ _ _ _ Hz Hp).
    + destruct (l_doctors ls !! k) as [[ds snap]|]; [|discriminate].
      injection Hst as <-. exact Hps.
    + destruct (l_patients ls !! k) as [[ps snap]|] eqn:Hk; [|discriminate].
      injection Hst as <-. simpl. apply Forall_insert; [exact Hps|]. simpl.
      pose proof (Forall_lookup_1 _ _ _ _ Hps Hk) as Hz. exact Hz.
Qed.

Lemma lreachable_no_feedback ls : lreachable ls -> lno_feedback ls.
Proof.
  induction 1 as [dus ps | ls lev ls' _ IH Hst].
  - split; simpl.
    + intros id a H. rewrite lookup_empty in H. discriminate.
    + apply List.Forall_forall. intros x Hx. apply in_map_iff in Hx as [p [<- _]].
      intros id fb H. simpl in H. rewrite lookup_empty in H. discriminate.
  - exact (lno_feedback_step _ _ _ IH Hst).
Qed.

(** C4 (code bug: the first submission never succeeds). 'Submit Feedback'
    is disabled while the entry's rating is 0
    ([disabled={!feedbackData[appointment.id]?.rating}]), and no star
    click ever raises it (see C7). So in every state the dashboards
    reach, even with lagging snapshots, a click on 'Submit Feedback' is
    never accepted and no document carries a feedback. *)
Theorem feedback_first_submission_never_succeeds :
  forall ls : lsystem, lreachable ls ->
    (forall (k : nat) (id : string), lstep ls (LPatientAct k (ClickSubmitFeedback id)) = None) /\
    (forall (id : string) (a : appointment), l_db ls !! id = Some a -> feedback_of a = None).
Proof.
  intros ls Hr. destruct (lreachable_no_feedback ls Hr) as [Hdb Hps].
  split; [|exact Hdb].
  intros k id. simpl.
  destruct (l_patients ls !! k) as [[ps snap]|] eqn:Hk; [|reflexivity].
  pose proof (Forall_lookup_1 _ _ _ _ Hps Hk) as Hz. simpl in Hz.
  simpl. rewrite (rating_or_zero_zero _ (Hz id)). simpl. rewrite andb_false_r. reflexivity.
Qed.

(** Ana opens the feedback form of her completed visit, clicks the fourth
    star, and cannot submit. *)
Lemma feedback_first_submission_never_succeeds_witness :
  lstep feedbackFormOpen (LPatientAct 0 (ClickStar "a1" 4)) =
    Some (lrun feedbackFormOpen [LPatientAct 0 (ClickStar "a1" 4)]) /\
  lstep (lrun feedbackFormOpen [LPatientAct 0 (ClickStar "a1" 4)])
        (LPatientAct 0 (ClickSubmitFeedback "a1")) = None.
Proof.
  split; [vm_compute; reflexivity|].
  apply (proj1 (feedback_first_submission_never_succeeds
                  (lrun feedbackFormOpen [LPatientAct 0 (ClickStar "a1" 4)])
                  (lreachable_run _ _ feedbackFormOpen_lreachable))).
Defined.

(** C7 (code bug: ratings 1..5 are never recorded). The star buttons
    offer 1..5, but [updateFeedback] lists [rating: prev[id]?.rating || 0]
    after [[field]: value], so a click leaves the entry's rating at its
    previous value or 0. In every state the dashboards reach, even with
    lagging snapshots, an accepted star click has a value in 1..5 and
    leaves the entry rated 0, and no document carries a feedback. *)
Theorem star_rating_never_recorded :
  (forall (id : string) (star : Z) (fd : feedbackMap),
     rating <$> (updateFeedback id RatingField (inl star) fd !! id) =
       Some (rating_or_zero (fd !! id))) /\
  (forall ls : lsystem, lreachable ls ->
     (forall (k : nat) (id : string) (star : Z) (ls' : lsystem),
        lstep ls (LPatientAct k (ClickStar id star)) = Some ls' ->
        (1 <= star <= 5)%Z /\
        exists ps snap, l_patients ls' !! k = Some (ps, snap) /\
                        rating <$> (feedbackData ps !! id) = Some 0%Z) /\
     (forall (id : string) (a : appointment), l_db ls !! id = Some a -> feedback_of a = None)).
Proof.
  split; [intros id star fd; apply updateFeedback_rating|].
  intros ls Hr. destruct (lreachable_no_feedback ls Hr) as [Hdb Hps].
  split; [|exact Hdb].
  intros k id star ls' H. simpl in H.
  destruct (l_patients ls !! k) as [[ps snap]|] eqn:Hk; [|discriminate]. simpl in H.
  destruct (feedbackFormShown _ snap id && Z.leb 1 star && Z.leb star 5) eqn:Hg;
    [|discriminate].
  injection H as <-.
  apply andb_true_iff in Hg as [Hg H5]. apply andb_true_iff in Hg as [_ H1].
  apply Z.leb_le in H1. apply Z.leb_le in H5.
  split; [lia|]. eexists. eexists. split.
  - simpl. apply list_lookup_insert_eq. exact (lookup_lt_Some _ _ _ Hk).
  - simpl. rewrite updateFeedback_rating.
    pose proof (Forall_lookup_1 _ _ _ _ Hps Hk) as Hz. simpl in Hz.
    rewrite (rating_or_zero_zero _ (Hz id)). reflexivity.
Qed.

Lemma star_rating_never_recorded_witness :
  exists ps snap,
    l_patients (lrun feedbackFormOpen [LPatientAct 0 (ClickStar "a1" 4)]) !! 0%nat = Some (ps, snap) /\
    rating <$> (feedbackData ps !! "a1"%string) = Some 0%Z.
Proof.
  apply (proj2 (proj1 (proj2 star_rating_never_recorded feedbackFormOpen
                         feedbackFormOpen_lreachable)
                  0%nat "a1" 4%Z (lrun feedbackFormOpen [LPatientAct 0 (ClickStar "a1" 4)])
                  ltac:(vm_compute; reflexivity))).
Defined.

(* ------------------------------------------------------------------ *)
(** ** C5: prescription visibility *)

(** C5 (amended): a dashboard renders the prescription of a document to
    the requester iff the requester is a patient, the document is theirs,
    it is completed and it has a prescription; otherwise nothing is
    rendered (no error). The doctor dashboard never renders a
    prescription. The rule depends only on the current document, so it
    holds in every state. *)
Theorem prescription_visible_to_patient_after_completion :
  forall (r : userProfile) (db : store) (id : string) (p : prescription),
    viewPrescription r db id = Some p <->
    role_of r = Patient /\
    exists a, db !! id = Some a /\ patientId a = uid r /\ status_of a = Completed /\
              prescription_of a = Some p.
Proof.
  intros r db id p. unfold viewPrescription.
  destruct (role_of r); [split; [discriminate | intros [H _]; discriminate]|].
  destruct (db !! id) as [a|] eqn:Ha.
  - unfold prescriptionBlock, status_eqb. split.
    + destruct (String.eqb (patientId a) (uid r)) eqn:Hp;
        [|intros H; simpl in H; discriminate H].
      apply String.eqb_eq in Hp.
      destruct (status_in [Completed; Cancelled] a); [|intros H; simpl in H; discriminate H].
      simpl. case_bool_decide as Hs; [|intros H; discriminate H].
      intros H. split; [reflexivity|]. exists a. auto.
    + intros [_ [a' [Ha' [Hp [Hs Hpr]]]]]. injection Ha' as <-.
      rewrite Hp, String.eqb_refl. unfold status_in. rewrite Hs. simpl. exact Hpr.
  - split; [discriminate|]. intros [_ [a' [Ha' _]]]. discriminate.
Qed.

Lemma prescription_visible_to_patient_after_completion_witness :
  viewPrescription patientAna (db_of state6) "a1" = Some amoxicillin.
Proof.
  apply (prescription_visible_to_patient_after_completion patientAna (db_of state6) "a1" amoxicillin).
  split; [reflexivity|].
  exists (set_completed_with amoxicillin (mkAppointment "p1" "2025-06-02" InProgress None None)).
  split; [vm_compute; reflexivity|]. auto.
Defined.

(** C5 counterexample: doctor Bo, the doctor of the completed visit of
    [state6], is shown no prescription. *)
Lemma doctor_prescription_counterexample :
  (exists a, db_of state6 !! "a1"%string = Some a /\ doctorId a = uid doctorBo /\
             status_of a = Completed /\ prescription_of a = Some amoxicillin) /\
  viewPrescription doctorBo (db_of state6) "a1" = None.
Proof.
  split; [|reflexivity].
  eexists. split; [vm_compute; reflexivity|]. auto.
Qed.

(* ------------------------------------------------------------------ *)
(** ** C8: doctor statistics *)

Lemma ratingSum_acc (l : list appointment) (z : Z) :
  fold_left (fun sum a => (sum + feedback_rating a)%Z) l z = (z + ratings_total l)%Z.
Proof.
  revert z. induction l as [|a l IH]; intros z; simpl; [lia|].
  rewrite IH. lia.
Qed.

(** Evaluates the status comparisons of a goal on known constructors. *)
Ltac status_bool :=
  unfold status_eqb in *;
  repeat first [ rewrite bool_decide_eq_true_2 by reflexivity
               | rewrite bool_decide_eq_false_2 by discriminate ].

Lemma active_count (l : list appointment) :
  List.length (activeAppointments l) =
  (count_status Confirmed l + count_status InProgress l)%nat.
Proof.
  unfold activeAppointments, count_status.
  induction l as [|a l IH]; [reflexivity|]. cbn [List.filter].
  unfold status_in at 1. cbn [existsb].
  destruct (status_of a); status_bool; cbn [orb List.length]; lia.
Qed.

(** C8: over any list of documents (the doctor's visible set being
    [doctorAppointments duid db]), the pending card counts the pending
    documents, the active card the confirmed and in-progress ones, the
    completed card the completed ones; the average rating is 0 when no
    document carries feedback, and otherwise the arithmetic mean of the
    ratings of the documents that carry feedback. *)
Theorem doctor_stats_counts_and_mean :
  forall l : list appointment,
    let w := appointmentsWithFeedback l in
    doctorStats l = (count_status Pending l,
                     (count_status Confirmed l + count_status InProgress l)%nat,
                     count_status Completed l, averageRating l) /\
    (w = [] -> averageRating l = 0) /\
    (w <> [] -> averageRating l * inject_Z (Z.of_nat (List.length w))
                == inject_Z (ratings_total w)).
Proof.
  intros l w. split; [|split].
  - unfold doctorStats. rewrite active_count. reflexivity.
  - intros Hw. unfold averageRating. fold w. rewrite Hw. reflexivity.
  - intros Hw. unfold averageRating. fold w. clearbody w.
    destruct w as [|a w']; [congruence|].
    cbn [List.length Nat.ltb]. unfold ratingSum. rewrite ratingSum_acc.
    rewrite Z.add_0_l, Qmult_comm. apply Qmult_div_r.
    intros H. unfold Qeq in H. simpl in H. discriminate H.
Qed.

Lemma doctor_stats_counts_and_mean_witness :
  appointmentsWithFeedback (doctorAppointments "d1" ratedStore) <> [] /\
  averageRating (doctorAppointments "d1" ratedStore) * inject_Z 2 == inject_Z 8 /\
  averageRating (doctorAppointments "d1" ratedStore) == 4 /\
  averageRating [] = 0.
Proof.
  split; [vm_compute; discriminate|]. split; [|split].
  - apply (proj2 (proj2 (doctor_stats_counts_and_mean (doctorAppointments "d1" ratedStore)))).
    vm_compute. discriminate.
  - vm_compute. reflexivity.
  - apply (proj1 (proj2 (doctor_stats_counts_and_mean []))). reflexivity.
Defined.

(* ------------------------------------------------------------------ *)
(** ** C9: patient statistics *)

Lemma upcoming_count (l : list appointment) :
  List.length (upcomingAppointments l) =
  (count_status Pending l + count_status Confirmed l + count_status InProgress l)%nat.
Proof.
  unfold upcomingAppointments, count_status.
  induction l as [|a l IH]; [reflexivity|]. cbn [List.filter].
  unfold status_in at 1. cbn [existsb].
  destruct (status_of a); status_bool; cbn [orb List.length]; lia.
Qed.

Lemma past_count (l : list appointment) :
  List.length (pastAppointments l) =
  (count_status Completed l + count_status Cancelled l)%nat.
Proof.
  unfold pastAppointments, count_status.
  induction l as [|a l IH]; [reflexivity|]. cbn [List.filter].
  unfold status_in at 1. cbn [existsb].
  destruct (status_of a); status_bool; cbn [orb List.length]; lia.
Qed.

(** C9: the patient's 'Upcoming Appointments' card counts the pending,
    confirmed and in-progress documents and the 'Prescriptions' card the
    documents with a prescription, but the 'Completed Visits' card counts
    the completed AND the cancelled ones: a patient whose only booking was
    declined sees one completed visit while no document is completed. *)
Theorem patient_completed_visits_counts_cancelled :
  (forall l : list appointment,
     patientStats l =
     ((count_status Pending l + count_status Confirmed l + count_status InProgress l)%nat,
      List.length (List.filter (fun a => match prescription_of a with
                                         | Some _ => true | None => false end) l),
      (count_status Completed l + count_status Cancelled l)%nat)) /\
  patientStats oneCancelled = (0, 0, 1)%nat /\
  count_status Completed oneCancelled = 0%nat.
Proof.
  split; [|split; reflexivity].
  intros l. unfold patientStats. rewrite upcoming_count, past_count. reflexivity.
Qed.

(* ------------------------------------------------------------------ *)
(** ** C10: the registration domain *)

Definition auth_inv (st : authState) : Prop :=
  List.Forall (fun acc => validateEmail (acc_email acc) = true) (accounts st) /\
  (forall k p, profiles st !! k = Some p -> validateEmail (email p) = true).

Lemma register_inv newUid passwordAccepted st e pw f l r st' :
  auth_inv st -> register newUid passwordAccepted st e pw f l r = inr st' -> auth_inv st'.
Proof.
  intros [Ha Hp]. unfold register.
  destruct (validateEmail e) eqn:He; simpl; [|discriminate].
  unfold createUserWithEmailAndPassword.
  destruct (_ || _); [discriminate|].
  intros H. injection H as <-. split; simpl.
  - constructor; [exact He|exact Ha].
  - intros k p Hk. destruct (decide (newUid st = k)) as [<-|Hne].
    + rewrite lookup_insert_eq in Hk. injection Hk as <-. exact He.
    + rewrite lookup_insert_ne in Hk by exact Hne. eauto.
Qed.

Lemma run_registers_inv newUid passwordAccepted calls st :
  auth_inv st -> auth_inv (run_registers newUid passwordAccepted st calls).
Proof.
  revert st. induction calls as [|[[[[e pw] f] l] r] rest IH]; intros st Hst; simpl; [exact Hst|].
  destruct (register _ _ st e pw f l r) eqn:Hr; apply IH; [exact Hst|].
  eapply register_inv; eauto.
Qed.

(** C10: [register] throws the domain error, before the identity provider
    is called, on an email not ending in ['@meditrack.local'], and such an
    attempt leaves the accounts and profiles unchanged. Whatever the
    provider's uids and password policy, after any sequence of
    registrations from the empty state every account and every profile
    carries such an email, and a sign-in can only yield an identity
    [(uid, role)] for such an email. *)
Theorem register_requires_meditrack_email :
  forall (newUid : authState -> string) (passwordAccepted : string -> bool),
    (forall st e pw f l r rest,
       validateEmail e = false ->
       register newUid passwordAccepted st e pw f l r = inl EmailDomainMsg /\
       run_registers newUid passwordAccepted st ((e, pw, f, l, r) :: rest) =
       run_registers newUid passwordAccepted st rest) /\
    (forall calls,
       let st := run_registers newUid passwordAccepted emptyAuth calls in
       List.Forall (fun acc => validateEmail (acc_email acc) = true) (accounts st) /\
       (forall k p, profiles st !! k = Some p -> validateEmail (email p) = true) /\
       (forall e pw ident, signIn st e pw = Some ident -> validateEmail e = true)).
Proof.
  intros newUid passwordAccepted. split.
  - intros st e pw f l r rest He.
    assert (Hr : register newUid passwordAccepted st e pw f l r = inl EmailDomainMsg)
      by (unfold register; rewrite He; reflexivity).
    split; [exact Hr|]. simpl. rewrite Hr. reflexivity.
  - intros calls st.
    assert (Hinv : auth_inv st).
    { apply run_registers_inv. split; [constructor|]. intros k p Hk. discriminate. }
    destruct Hinv as [Ha Hp]. split; [exact Ha|]. split; [exact Hp|].
    intros e pw ident. unfold signIn.
    destruct (List.find _ (accounts st)) as [acc|] eqn:Hf; [|discriminate].
    intros _. apply List.find_some in Hf as [Hin Hm].
    apply andb_prop in Hm as [Hm _]. apply String.eqb_eq in Hm. subst e.
    rewrite List.Forall_forall in Ha. exact (Ha acc Hin).
Qed.

Lemma register_requires_meditrack_email_witness :
  validateEmail "ana@gmail.com" = false /\
  register (fun _ => "u1") (fun _ => true) emptyAuth "ana@gmail.com" "secret1" "Ana" "Lee" Patient
  = inl EmailDomainMsg /\
  signIn (run_registers (fun _ => "u1") (fun _ => true) emptyAuth sampleRegisters)
         "ana@meditrack.local" "secret1" = Some ("u1", Patient) /\
  validateEmail "ana@meditrack.local" = true.
Proof.
  split; [reflexivity|]. split; [|split; [vm_compute; reflexivity|]].
  - apply (proj1 ((proj1 (register_requires_meditrack_email (fun _ => "u1") (fun _ => true)))
                    emptyAuth "ana@gmail.com" "secret1" "Ana" "Lee" Patient [] eq_refl)).
  - apply (proj2 (proj2 ((proj2 (register_requires_meditrack_email (fun _ => "u1") (fun _ => true)))
                           sampleRegisters)) "ana@meditrack.local" "secret1" ("u1"%string, Patient)).
    vm_compute. reflexivity.
Defined.

(* ================================================================== *)
(** * Further properties of the code *)

(* ------------------------------------------------------------------ *)
(** ** Snapshots and counting *)

Lemma map_values_lookup {V} (m : gmap string V) (x : V) :
  In x ((map_to_list m).*2) -> exists k, m !! k = Some x.
Proof.
  intros H. apply list_elem_of_In in H.
  apply list_elem_of_fmap in H as [[k y] [-> Hin]].
  exists k. apply elem_of_map_to_list. exact Hin.
Qed.

Lemma docs_lookup (db : store) a : In a (docs db) -> exists id, db !! id = Some a.
Proof. apply map_values_lookup. Qed.

Lemma filter_nil_if {A} (f : A -> bool) (l : list A) :
  (forall x, In x l -> f x = false) -> List.filter f l = [].
Proof.
  induction l as [|x l IH]; intros H; simpl; [reflexivity|].
  rewrite (H x (or_introl eq_refl)). apply IH. intros y Hy. apply H. right. exact Hy.
Qed.

Lemma todayAppointments_zero (db : store) p t :
  (forall id a, db !! id = Some a -> patientId a = p -> date a <> t) ->
  todayAppointments db p t = 0%nat.
Proof.
  intros H. unfold todayAppointments. rewrite filter_nil_if; [reflexivity|].
  intros a Ha. destruct (docs_lookup _ _ Ha) as [id Hid].
  destruct (String.eqb_spec (patientId a) p) as [Hp|]; [|reflexivity].
  destruct (String.eqb_spec (date a) t) as [Hd|]; [|reflexivity].
  exfalso. exact (H id a Hid Hp Hd).
Qed.

(** Rewriting an existing document without touching its patient and date
    leaves every [todayAppointments] count as it was. *)
Lemma todayAppointments_update (db : store) id a b p t :
  db !! id = Some a -> patientId b = patientId a -> date b = date a ->
  todayAppointments (<[id := b]> db) p t = todayAppointments db p t.
Proof.
  intros Ha Hp Hd.
  assert (Hdb : db = <[id := a]> (delete id db))
    by (rewrite insert_delete_eq; symmetry; apply insert_id; exact Ha).
  rewrite Hdb at 2. rewrite <- (insert_delete_eq db id b).
  rewrite !todayAppointments_insert by apply lookup_delete_eq.
  rewrite Hp, Hd. reflexivity.
Qed.

Lemma handleSubmit_ok (db : store) doctors profile today now sd d t n a :
  handleSubmit db doctors profile today now sd d t n = inr a ->
  (todayAppointments db (uid profile) today < 2)%nat /\ patientId a = uid profile /\
  date a = d /\ doctorId a = sd /\ feedback_of a = None /\
  exists dd, List.find (fun dd => String.eqb (d_uid dd) sd) doctors = Some dd /\
    doctorName a = (d_firstName dd ++ " " ++ d_lastName dd)%string.
Proof.
  unfold handleSubmit.
  destruct (Nat.leb_spec 2 (todayAppointments db (uid profile) today)) as [_|Hlt];
    [discriminate|].
  destruct (_ || _ || _); [discriminate|].
  destruct (str_ltb d today); [discriminate|].
  destruct (List.find _ _) as [dd|] eqn:Hf; [|discriminate].
  intros H. injection H as <-. repeat split; auto.
  exists dd. auto.
Qed.

(* ------------------------------------------------------------------ *)
(** ** What one step does to the store *)

Lemma doctorStep_store ds (db : store) ev ds' db' :
  doctorStep ds db ev = Some (ds', db') ->
  db' = db \/
  exists id a b, db !! id = Some a /\ db' = <[id := b]> db /\ doctorId a = ds_uid ds /\
    patientId b = patientId a /\ date b = date a /\ doctorId b = doctorId a /\
    feedback_of b = feedback_of a.
Proof.
  destruct ev as [id|id|id|id|pd|id|]; simpl.
  1-3: destruct (shownToDoctor _ db id _) eqn:Hsh; [|discriminate];
       apply shownToDoctor_spec in Hsh as [a [Ha [Hd _]]];
       intros H; injection H as <- <-; rewrite (updateAppointmentStatus_ok _ _ _ _ Ha);
       right; exists id, a; eexists; split; [exact Ha|]; split; [reflexivity|];
       repeat split; auto.
  - destruct (shownToDoctor _ db id _); [|discriminate].
    intros H. injection H as <- <-. left. reflexivity.
  - intros H. injection H as <- <-. left. reflexivity.
  - destruct (opt_str_eqb (selectedAppointment ds) id); [|discriminate].
    destruct (shownToDoctor _ db id [Confirmed; InProgress]) eqn:Hsh; [|discriminate].
    simpl. apply shownToDoctor_spec in Hsh as [a0 [Ha0 [Hd _]]].
    destruct (handlePrescriptionSubmit id (prescriptionData ds) db) as [e|db1] eqn:Hp.
    + intros H. injection H as <- <-. left. reflexivity.
    + intros H. injection H as <- <-.
      apply handlePrescriptionSubmit_inv in Hp as [_ [a [Ha ->]]].
      rewrite Ha in Ha0. injection Ha0 as <-. right.
      exists id, a, (set_completed_with (prescriptionData ds) a). repeat split; auto.
  - intros H. injection H as <- <-. left. reflexivity.
Qed.

Lemma patientStep_store ps (db : store) ev ps' db' :
  patientStep ps db ev = Some (ps', db') ->
  db' = db \/
  (exists id a fb, db !! id = Some a /\ patientId a = uid (ps_profile ps) /\
     rating_or_zero (feedbackData ps !! id) <> 0%Z /\ db' = <[id := set_feedback fb a]> db) \/
  (exists newId doctors today now sd d t n a,
     ev = SubmitBooking newId doctors today now sd d t n /\ db !! newId = None /\
     handleSubmit db doctors (ps_profile ps) today now sd d t n = inr a /\
     db' = <[newId := a]> db).
Proof.
  destruct ev as [id star|id text|id|newId doctors today now sd d t n]; simpl.
  - destruct (_ && _ && _); [|discriminate].
    intros H. injection H as <- <-. left. reflexivity.
  - destruct (feedbackFormShown _ db id); [|discriminate].
    intros H. injection H as <- <-. left. reflexivity.
  - destruct (feedbackFormShown _ db id) eqn:Hsh; [|discriminate]. simpl.
    destruct (negb _) eqn:Hn; [|discriminate].
    apply negb_true_iff, Z.eqb_neq in Hn.
    apply feedbackFormShown_spec in Hsh as [a0 [Ha0 [Hp0 _]]].
    destruct (handleFeedbackSubmit_cases id (feedbackData ps) db)
      as [Heq | [fb [a [_ [_ [Ha Heq]]]]]]; rewrite Heq;
      intros H; injection H as <- <-.
    + left. reflexivity.
    + rewrite Ha in Ha0. injection Ha0 as <-. right. left.
      exists id, a, fb. auto.
  - destruct (db !! newId) eqn:Hfresh; [discriminate|].
    unfold book. destruct (handleSubmit _ _ _ _ _ _ _ _ _) as [e|a] eqn:Hh;
      intros H; injection H as <- <-.
    + left. reflexivity.
    + right. right. exists newId, doctors, today, now, sd, d, t, n, a. auto.
Qed.

(* ------------------------------------------------------------------ *)
(** ** Bookings ahead of the day *)

Lemma idOf_length j : String.length (idOf j) = S j.
Proof. induction j as [|j IH]; simpl; [reflexivity|]. rewrite IH. reflexivity. Qed.

Lemma idOf_inj i j : idOf i = idOf j -> i = j.
Proof.
  intros H. apply (f_equal String.length) in H. rewrite !idOf_length in H. lia.
Qed.

Lemma handleSubmit_advance (db : store) :
  todayAppointments db "p1" "2025-06-01" = 0%nat ->
  handleSubmit db doctorList patientAna "2025-06-01" 0 "d1" "2025-06-02" "09:00" ""
  = inr (mkAppointment "p1" "2025-06-02" Pending None None).
Proof.
  intros H. unfold handleSubmit.
  rewrite (H : todayAppointments db (uid patientAna) "2025-06-01" = 0%nat).
  reflexivity.
Qed.

Lemma advance_step (s : system) n :
  patientSessions s = patientSessions state0 ->
  db_of s !! idOf n = None ->
  todayAppointments (db_of s) "p1" "2025-06-01" = 0%nat ->
  sys_step s (advanceBooking n) =
  Some {| db_of := <[idOf n := mkAppointment "p1" "2025-06-02" Pending None None]> (db_of s);
          doctorSessions := doctorSessions s; patientSessions := patientSessions s |}.
Proof.
  intros Hps Hfresh Hzero. unfold sys_step, advanceBooking.
  assert (H0 : patientSessions s !! 0%nat = Some anaSessionRecord) by (rewrite Hps; reflexivity).
  rewrite H0. unfold patientStep. cbv beta iota zeta.
  change (ps_profile anaSessionRecord) with patientAna.
  rewrite Hfresh. unfold book. rewrite (handleSubmit_advance _ Hzero).
  rewrite (list_insert_id _ _ _ H0). reflexivity.
Qed.

Lemma advance_inv n :
  let s := run_events state0 (advanceBookings n) in
  patientSessions s = patientSessions state0 /\
  (forall id a, db_of s !! id = Some a ->
     (exists j, (j < n)%nat /\ id = idOf j) /\ patientId a = "p1" /\ date a = "2025-06-02") /\
  todayAppointments (db_of s) "p1" "2025-06-02" = n.
Proof.
  induction n as [|n IH]; cbv zeta.
  - simpl. split; [reflexivity|]. split; [|reflexivity].
    intros id a H. simpl in H. rewrite lookup_empty in H. discriminate.
  - unfold advanceBookings in *. rewrite seq_S, map_app. unfold run_events in *.
    rewrite fold_left_app. cbv zeta in IH. cbn [map fold_left].
    set (s := fold_left _ (map advanceBooking (seq 0 n)) state0) in *.
    destruct IH as [Hps [Hdb Hcnt]].
    assert (Hfresh : db_of s !! idOf n = None).
    { destruct (db_of s !! idOf n) as [a|] eqn:Ha; [|reflexivity].
      destruct (Hdb _ _ Ha) as [[j [Hj Heq]] _]. apply idOf_inj in Heq. lia. }
    assert (Hzero : todayAppointments (db_of s) "p1" "2025-06-01" = 0%nat).
    { apply todayAppointments_zero. intros id a Ha _. destruct (Hdb _ _ Ha) as [_ [_ ->]].
      discriminate. }
    rewrite Nat.add_0_l, (advance_step s n Hps Hfresh Hzero). simpl.
    split; [exact Hps|]. split.
    + intros id a H. destruct (decide (idOf n = id)) as [<-|Hne].
      * rewrite lookup_insert_eq in H. injection H as <-.
        split; [exists n; split; [lia|reflexivity]|]. split; reflexivity.
      * rewrite lookup_insert_ne in H by exact Hne.
        destruct (Hdb _ _ H) as [[j [Hj ->]] Hrest]. split; [|exact Hrest].
        exists j. split; [lia|reflexivity].
    + rewrite todayAppointments_insert by exact Hfresh. rewrite Hcnt. reflexivity.
Qed.

(** The cap only looks at the day of submission: a patient can book any
    number [n] of appointments for a later date (here 2025-06-02, booked
    on 2025-06-01); on that date the warning banner reports [n] bookings
    and [2 - n] remaining (negative from three on), and with two or more
    every booking that day is refused. *)
Theorem advance_bookings_unbounded :
  forall n : nat,
    let db := db_of (run_events state0 (advanceBookings n)) in
    todayAppointments db "p1" "2025-06-02" = n /\
    ((1 <= n)%nat -> dailyLimitBanner (todayAppointments db "p1" "2025-06-02")
               = Some (n, (2 - Z.of_nat n)%Z)) /\
    ((2 <= n)%nat -> forall newId doctors now sd d tm nt,
       book db newId doctors patientAna "2025-06-02" now sd d tm nt = inl DailyLimitMsg).
Proof.
  intros n db. destruct (advance_inv n) as [_ [_ Hcnt]]. fold db in Hcnt.
  split; [exact Hcnt|]. split.
  - intros Hn. rewrite Hcnt. unfold dailyLimitBanner.
    destruct (Nat.ltb_spec 0 n); [reflexivity|lia].
  - intros Hn newId doctors now sd d tm nt. unfold book, handleSubmit.
    rewrite (Hcnt : todayAppointments db (uid patientAna) "2025-06-02" = n).
    destruct (Nat.leb_spec 2 n); [reflexivity|lia].
Qed.

Lemma advance_bookings_unbounded_witness :
  dailyLimitBanner (todayAppointments (db_of (run_events state0 (advanceBookings 5)))
                      "p1" "2025-06-02") = Some (5%nat, (-3)%Z) /\
  book (db_of (run_events state0 (advanceBookings 5))) "y" doctorList patientAna
       "2025-06-02" 0 "d1" "2025-06-03" "09:00" "" = inl DailyLimitMsg.
Proof.
  split.
  - apply (proj1 (proj2 (advance_bookings_unbounded 5))). lia.
  - apply (proj2 (proj2 (advance_bookings_unbounded 5))). lia.
Defined.

(* ------------------------------------------------------------------ *)
(** ** Each session writes only its own documents *)

(** A step changes document [id] only when it belongs to the acting
    user: a doctor's step only rewrites an existing document of that
    doctor (it never creates one and the document stays the doctor's),
    and a patient's step only writes a document of that patient, either
    one of their own or a fresh id. *)
Theorem sessions_change_only_own_records :
  forall (s : system) (ev : event) (s' : system) (id : string),
    sys_step s ev = Some s' -> db_of s' !! id <> db_of s !! id ->
    match ev with
    | DoctorAct k _ =>
        exists ds a b, doctorSessions s !! k = Some ds /\
          db_of s !! id = Some a /\ doctorId a = ds_uid ds /\
          db_of s' !! id = Some b /\ doctorId b = ds_uid ds
    | PatientAct k _ =>
        exists ps b, patientSessions s !! k = Some ps /\
          (forall a, db_of s !! id = Some a -> patientId a = uid (ps_profile ps)) /\
          db_of s' !! id = Some b /\ patientId b = uid (ps_profile ps)
    end.
Proof.
  intros s ev s' id. destruct ev as [k e|k e]; simpl.
  - destruct (doctorSessions s !! k) as [ds|] eqn:Hk; [|discriminate].
    destruct (doctorStep ds (db_of s) e) as [[ds' db']|] eqn:Hst; [|discriminate].
    intros H. injection H as <-. simpl.
    destruct (doctorStep_store _ _ _ _ _ Hst)
      as [-> | [id0 [a [b [Ha [-> [Hd [_ [_ [Hdb _]]]]]]]]]]; intros Hne; [congruence|].
    destruct (decide (id0 = id)) as [<-|Hne0].
    + exists ds, a, b. rewrite lookup_insert_eq. repeat split; congruence.
    + rewrite lookup_insert_ne in Hne by exact Hne0. congruence.
  - destruct (patientSessions s !! k) as [ps|] eqn:Hk; [|discriminate].
    destruct (patientStep ps (db_of s) e) as [[ps' db']|] eqn:Hst; [|discriminate].
    intros H. injection H as <-. simpl.
    destruct (patientStep_store _ _ _ _ _ Hst)
      as [-> | [[id0 [a [fb [Ha [Hp [_ ->]]]]]]
               | [newId [doctors [today [now [sd [d [tm [n [a [_ [Hfresh [Hh ->]]]]]]]]]]]]]];
      intros Hne; [congruence| |].
    + destruct (decide (id0 = id)) as [<-|Hne0].
      * exists ps, (set_feedback fb a). rewrite lookup_insert_eq.
        split; [reflexivity|]. split; [|split; [reflexivity|exact Hp]].
        intros a' Ha'. rewrite Ha in Ha'. injection Ha' as <-. exact Hp.
      * rewrite lookup_insert_ne in Hne by exact Hne0. congruence.
    + destruct (decide (newId = id)) as [<-|Hne0].
      * exists ps, a. rewrite lookup_insert_eq.
        destruct (handleSubmit_ok _ _ _ _ _ _ _ _ _ _ Hh) as [_ [Hp _]].
        split; [reflexivity|]. split; [|split; [reflexivity|exact Hp]].
        intros a' Ha'. rewrite Hfresh in Ha'. discriminate.
      * rewrite lookup_insert_ne in Hne by exact Hne0. congruence.
Qed.

Lemma sessions_change_only_own_records_witness :
  exists ps b, patientSessions state0 !! 0%nat = Some ps /\
    (forall a, db_of state0 !! "a1"%string = Some a -> patientId a = uid (ps_profile ps)) /\
    db_of state1 !! "a1"%string = Some b /\ patientId b = uid (ps_profile ps).
Proof.
  apply (sessions_change_only_own_records state0 bookEvent state1 "a1").
  - vm_compute. reflexivity.
  - intros H. vm_compute in H. discriminate H.
Defined.

(* ------------------------------------------------------------------ *)
(** ** No feedback is ever stored *)

Lemma patientStep_no_feedback ps (db : store) ev ps' db' :
  (forall id a, db !! id = Some a -> feedback_of a = None) ->
  (forall id fb, feedbackData ps !! id = Some fb -> rating fb = 0%Z) ->
  patientStep ps db ev = Some (ps', db') ->
  (forall id a, db' !! id = Some a -> feedback_of a = None) /\
  (forall id fb, feedbackData ps' !! id = Some fb -> rating fb = 0%Z).
Proof.
  intros Hdb Hps. destruct ev as [id star|id text|id|newId doctors today now sd d t n]; simpl.
  - destruct (_ && _ && _); [|discriminate].
    intros H. injection H as <- <-. split; [exact Hdb|]. simpl.
    apply updateFeedback_zero. exact Hps.
  - destruct (feedbackFormShown _ db id); [|discriminate].
    intros H. injection H as <- <-. split; [exact Hdb|]. simpl.
    apply updateFeedback_zero. exact Hps.
  - rewrite (rating_or_zero_zero _ (Hps id)). simpl. rewrite andb_false_r. discriminate.
  - destruct (db !! newId) eqn:Hfresh; [discriminate|].
    unfold book. destruct (handleSubmit _ _ _ _ _ _ _ _ _) as [e|a] eqn:Hh;
      intros H; injection H as <- <-; split; try exact Hps; [exact Hdb|].
    destruct (handleSubmit_ok _ _ _ _ _ _ _ _ _ _ Hh) as [_ [_ [_ [_ [Hf _]]]]].
    intros id a' Ha'. destruct (decide (newId = id)) as [<-|Hne].
    + rewrite lookup_insert_eq in Ha'. injection Ha' as <-. exact Hf.
    + rewrite lookup_insert_ne in Ha' by exact Hne. exact (Hdb _ _ Ha').
Qed.

Lemma no_feedback_step s ev s' : no_feedback s -> sys_step s ev = Some s' -> no_feedback s'.
Proof.
  intros [Hdb Hps]. destruct ev as [k e|k e]; simpl.
  - destruct (doctorSessions s !! k) as [ds|]; [|discriminate].
    destruct (doctorStep ds (db_of s) e) as [[ds' db']|] eqn:Hst; [|discriminate].
    intros H. injection H as <-. split; [|exact Hps]. simpl.
    destruct (doctorStep_store _ _ _ _ _ Hst)
      as [-> | [id0 [a [b [Ha [-> [_ [_ [_ [_ Hf]]]]]]]]]]; [exact Hdb|].
    intros id a' Ha'. destruct (decide (id0 = id)) as [<-|Hne].
    + rewrite lookup_insert_eq in Ha'. injection Ha' as <-. rewrite Hf. exact (Hdb _ _ Ha).
    + rewrite lookup_insert_ne in Ha' by exact Hne. exact (Hdb _ _ Ha').
  - destruct (patientSessions s !! k) as [ps|] eqn:Hk; [|discriminate].
    destruct (patientStep ps (db_of s) e) as [[ps' db']|] eqn:Hst; [|discriminate].
    intros H. injection H as <-.
    destruct (patientStep_no_feedback _ _ _ _ _ Hdb (Forall_lookup_1 _ _ _ _ Hps Hk) Hst)
      as [Hdb' Hps'].
    split; [exact Hdb'|]. simpl. apply Forall_insert; [exact Hps|exact Hps'].
Qed.

Lemma reachable_no_feedback s : reachable s -> no_feedback s.
Proof.
  induction 1 as [dus ps | s ev s' _ IH Hst].
  - split; simpl.
    + intros id a H. rewrite lookup_empty in H. discriminate.
    + apply List.Forall_forall. intros x Hx. apply in_map_iff in Hx as [p [<- _]].
      intros id fb H. simpl in H. rewrite lookup_empty in H. discriminate.
  - exact (no_feedback_step _ _ _ IH Hst).
Qed.

(** A star click never changes the entry's rating (it stays 0), so in
    every state the dashboards can reach no document carries a feedback,
    'Submit Feedback' can never be clicked, and every doctor's
    'Average Rating' card shows 0. *)
Theorem feedback_never_recorded :
  forall s : system, reachable s ->
    (forall id a, db_of s !! id = Some a -> feedback_of a = None) /\
    (forall k id, sys_step s (PatientAct k (ClickSubmitFeedback id)) = None) /\
    (forall duid, averageRating (doctorAppointments duid (db_of s)) = 0%Q).
Proof.
  intros s Hr. destruct (reachable_no_feedback s Hr) as [Hdb Hps].
  split; [exact Hdb|]. split.
  - intros k id. simpl. destruct (patientSessions s !! k) as [ps|] eqn:Hk; [|reflexivity].
    simpl. rewrite (rating_or_zero_zero _ (Forall_lookup_1 _ _ _ _ Hps Hk id)).
    simpl. rewrite andb_false_r. reflexivity.
  - intros duid. unfold averageRating, appointmentsWithFeedback.
    rewrite filter_nil_if; [reflexivity|].
    intros a Ha. unfold doctorAppointments in Ha. apply filter_In in Ha as [Ha _].
    apply docs_lookup in Ha as [id Ha]. rewrite (Hdb _ _ Ha). reflexivity.
Qed.

Lemma feedback_never_recorded_witness :
  averageRating (doctorAppointments "d1" (db_of state6)) = 0%Q /\
  sys_step (run_events state6 [PatientAct 0 (ClickStar "a1" 4)])
           (PatientAct 0 (ClickSubmitFeedback "a1")) = None.
Proof.
  split.
  - apply (feedback_never_recorded state6). exact (reachable_run _ _ state5_reachable).
  - apply (feedback_never_recorded _).
    exact (reachable_run _ _ (reachable_run _ _ state5_reachable)).
Defined.

(* ------------------------------------------------------------------ *)
(** ** Booked doctors are registered doctors *)

(** A booking made from the doctor list [fetchDoctors] loads names a
    registered profile with role doctor: the document's [doctorId] is that
    profile's uid and its [doctorName] the profile's first and last name. *)
Theorem booked_doctor_is_registered :
  forall (st : authState) (db : store) (profile : userProfile) today now sd d t n a,
    handleSubmit db (fetchDoctors st) profile today now sd d t n = inr a ->
    exists k p, profiles st !! k = Some p /\ role_of p = Doctor /\ uid p = doctorId a /\
      doctorName a = (firstName p ++ " " ++ lastName p)%string.
Proof.
  intros st db profile today now sd d t n a Hh.
  destruct (handleSubmit_ok _ _ _ _ _ _ _ _ _ _ Hh)
    as [_ [_ [_ [Hsd [_ [dd [Hfind Hname]]]]]]].
  apply List.find_some in Hfind as [Hin Heq]. apply String.eqb_eq in Heq.
  unfold fetchDoctors in Hin. apply in_map_iff in Hin as [p [<- Hin]].
  apply filter_In in Hin as [Hin Hrole].
  apply map_values_lookup in Hin as [k Hk].
  exists k, p. split; [exact Hk|]. split.
  - unfold has_role in Hrole. destruct (role_of p); [reflexivity|discriminate].
  - simpl in Heq, Hname. split; [congruence|exact Hname].
Qed.

Lemma booked_doctor_is_registered_witness :
  match handleSubmit ∅ (fetchDoctors clinicAuth) patientAna "2025-06-01" 0 "d1"
          "2025-06-02" "09:00" "" with
  | inr a => exists k p, profiles clinicAuth !! k = Some p /\ role_of p = Doctor /\
               uid p = doctorId a /\ doctorName a = (firstName p ++ " " ++ lastName p)%string
  | inl _ => False
  end.
Proof.
  destruct (handleSubmit ∅ (fetchDoctors clinicAuth) patientAna "2025-06-01" 0 "d1"
              "2025-06-02" "09:00" "") as [e|a] eqn:Hh.
  - vm_compute in Hh. discriminate Hh.
  - exact (booked_doctor_is_registered _ _ _ _ _ _ _ _ _ _ Hh).
Defined.

(* ------------------------------------------------------------------ *)
(** ** The patient's two lists *)

Lemma status_upcoming_or_past a :
  status_in [Pending; Confirmed; InProgress] a = negb (status_in [Completed; Cancelled] a).
Proof. unfold status_in. cbn [existsb]. destruct (status_of a); status_bool; reflexivity. Qed.

(** Every appointment of the patient appears in exactly one of the
    'Upcoming' and 'Past' lists, so the two lists together are as long as
    the patient's appointment list. *)
Theorem patient_lists_partition :
  forall l : list appointment,
    (List.length (upcomingAppointments l) + List.length (pastAppointments l))%nat
      = List.length l /\
    (forall a, In a l -> (In a (upcomingAppointments l) <-> ~ In a (pastAppointments l))).
Proof.
  intros l. split.
  - induction l as [|a l IH]; [reflexivity|].
    unfold upcomingAppointments, pastAppointments in *. cbn [List.filter].
    rewrite status_upcoming_or_past.
    destruct (status_in [Completed; Cancelled] a); cbn [negb List.length]; lia.
  - intros a Ha. unfold upcomingAppointments, pastAppointments.
    rewrite !filter_In, status_upcoming_or_past.
    destruct (status_in [Completed; Cancelled] a); cbn [negb]; intuition discriminate.
Qed.

(* ------------------------------------------------------------------ *)
(** ** Sign-in, sign-out and the navbar *)

Lemma has_role_spec r (p : option userProfile) :
  has_role r p = true <-> exists pr, p = Some pr /\ role_of pr = r.
Proof.
  destruct p as [pr|]; simpl.
  - split.
    + intros H. exists pr. split; [reflexivity|]. destruct (role_of pr), r; congruence.
    + intros [pr' [E <-]]. injection E as <-. destruct (role_of pr); reflexivity.
  - split; [discriminate|]. intros [pr [E _]]. discriminate E.
Qed.

(** After [logout] the navbar renders nothing; while it is rendered, the
    'Book Appointment' link is shown exactly when the loaded profile is a
    patient's, and the logo leads to the doctor dashboard exactly when it
    is a doctor's. *)
Theorem navbar_links_follow_role :
  forall (st : authState) (sess : authSession),
    navbar (logout st sess) = None /\
    (forall v, navbar sess = Some v ->
       (In "/book-appointment"%string (menuLinks v) <->
          exists p, sessionProfile sess = Some p /\ role_of p = Patient) /\
       (logoLink v = "/doctor-dashboard"%string <->
          exists p, sessionProfile sess = Some p /\ role_of p = Doctor)).
Proof.
  intros st sess. split; [reflexivity|].
  intros v. unfold navbar. destruct (currentUser sess); [|discriminate].
  intros H. injection H as <-. cbn [menuLinks logoLink].
  rewrite <- !has_role_spec. split.
  - destruct (has_role Patient _); cbn; [tauto|].
    split; [intros [E|[]]; discriminate E|discriminate].
  - destruct (has_role Doctor _); split; (reflexivity || discriminate).
Qed.

Lemma navbar_links_follow_role_witness :
  match navbar anaSession with
  | Some v =>
      (In "/book-appointment"%string (menuLinks v) <->
         exists p, sessionProfile anaSession = Some p /\ role_of p = Patient) /\
      (logoLink v = "/doctor-dashboard"%string <->
         exists p, sessionProfile anaSession = Some p /\ role_of p = Doctor)
  | None => False
  end.
Proof.
  destruct (navbar anaSession) as [v|] eqn:Hv.
  - exact (proj2 (navbar_links_follow_role clinicAuth anaSession) v Hv).
  - vm_compute in Hv. discriminate Hv.
Defined.

(** When the signed-in user has no [users] document, [fetchUserProfile]
    leaves the profile as it was: the previous user's profile stays next
    to the new [currentUser]; and after a [logout] there is none, so the
    navbar shows no name and no role, its logo leads to the patient
    dashboard and its only menu link to the doctor dashboard. *)
Theorem navbar_without_profile_document :
  forall (st : authState) (sess : authSession) (u : string),
    profiles st !! u = None ->
    currentUser (onAuthStateChanged st (Some u) sess) = Some u /\
    sessionProfile (onAuthStateChanged st (Some u) sess) = sessionProfile sess /\
    navbar (onAuthStateChanged st (Some u) (logout st sess)) =
      Some {| logoLink := "/patient-dashboard"; menuLinks := ["/doctor-dashboard"];
              nameShown := None; roleShown := None |}%string.
Proof.
  intros st sess u Hu. unfold onAuthStateChanged, fetchUserProfile. rewrite Hu.
  split; [reflexivity|]. split; reflexivity.
Qed.

Lemma navbar_without_profile_document_witness :
  currentUser (onAuthStateChanged clinicAuth (Some "u9"%string) anaSession) = Some "u9"%string /\
  option_map uid (sessionProfile (onAuthStateChanged clinicAuth (Some "u9"%string) anaSession))
    = Some "p1"%string.
Proof.
  destruct (navbar_without_profile_document clinicAuth anaSession "u9") as [H1 [H2 _]].
  - vm_compute. reflexivity.
  - split; [exact H1|]. rewrite H2. vm_compute. reflexivity.
Defined.

(** A successful [register] followed by [login] with the same email and
    password signs in the new account and loads exactly the profile
    [register] wrote. *)
Theorem register_then_login :
  forall (newUid : authState -> string) (passwordAccepted : string -> bool)
         (st st' : authState) (e pw f l : string) (r : role) (sess : authSession),
    register newUid passwordAccepted st e pw f l r = inr st' ->
    login st' e pw sess =
      Some {| currentUser := Some (newUid st);
              sessionProfile := Some {| uid := newUid st; email := e; role_of := r;
                                        firstName := f; lastName := l |};
              loading := false |}.
Proof.
  intros newUid pa st st' e pw f l r sess. unfold register, createUserWithEmailAndPassword.
  destruct (negb (validateEmail e)); [discriminate|].
  destruct (_ || _); [discriminate|].
  intros H. injection H as <-.
  unfold login, signInWithEmailAndPassword. cbn [accounts List.find acc_email acc_password].
  rewrite !String.eqb_refl. cbn [andb acc_uid].
  unfold onAuthStateChanged, fetchUserProfile. cbn [profiles].
  rewrite lookup_insert_eq. reflexivity.
Qed.

Lemma register_then_login_witness :
  match register sampleUid (fun _ => true) emptyAuth "bo@meditrack.local" "pw" "Bo" "Ray" Doctor with
  | inr st' => login st' "bo@meditrack.local" "pw" initialAuthSession =
      Some {| currentUser := Some "d1"%string;
              sessionProfile := Some {| uid := "d1"; email := "bo@meditrack.local";
                                        role_of := Doctor; firstName := "Bo";
                                        lastName := "Ray" |};
              loading := false |}
  | inl _ => False
  end.
Proof.
  destruct (register sampleUid (fun _ => true) emptyAuth "bo@meditrack.local" "pw" "Bo" "Ray"
              Doctor) as [err|st'] eqn:Hr.
  - vm_compute in Hr. discriminate Hr.
  - exact (register_then_login sampleUid (fun _ => true) emptyAuth st' _ _ _ _ _ _ Hr).
Defined.

Lemma register_keeps_accounts newUid passwordAccepted st e pw f l r st' :
  register newUid passwordAccepted st e pw f l r = inr st' ->
  forall acc, In acc (accounts st) -> In acc (accounts st').
Proof.
  unfold register. destruct (negb (validateEmail e)); [discriminate|].
  destruct (createUserWithEmailAndPassword _ _ st e pw) as [acc0|]; [|discriminate].
  intros H. injection H as <-. intros acc Hin. right. exact Hin.
Qed.

Lemma run_registers_keeps_accounts newUid passwordAccepted calls st :
  forall acc, In acc (accounts st) ->
    In acc (accounts (run_registers newUid passwordAccepted st calls)).
Proof.
  revert st. induction calls as [|[[[[e pw] f] l] r] rest IH]; intros st acc Hin; simpl;
    [exact Hin|].
  destruct (register _ _ st e pw f l r) eqn:Hr; apply IH; [exact Hin|].
  exact (register_keeps_accounts _ _ _ _ _ _ _ _ _ Hr acc Hin).
Qed.

(** Once [register] has succeeded for an email, every later [register]
    with that email, after any sequence of other registration attempts,
    fails in [createUserWithEmailAndPassword], whatever the password, name
    and role. *)
Theorem register_email_taken :
  forall (newUid : authState -> string) (passwordAccepted : string -> bool)
         (st st' : authState) (e pw f l : string) (r : role)
         (calls : list (string * string * string * string * role))
         (pw' f' l' : string) (r' : role),
    register newUid passwordAccepted st e pw f l r = inr st' ->
    register newUid passwordAccepted (run_registers newUid passwordAccepted st' calls)
             e pw' f' l' r' = inl AuthFailed.
Proof.
  intros newUid pa st st' e pw f l r calls pw' f' l' r' H.
  assert (He : validateEmail e = true)
    by (unfold register in H; destruct (validateEmail e); [reflexivity|discriminate]).
  assert (Hin : In {| acc_email := e; acc_password := pw; acc_uid := newUid st |} (accounts st')).
  { unfold register, createUserWithEmailAndPassword in H. rewrite He in H. simpl in H.
    destruct (_ || _); [discriminate|]. injection H as <-. left. reflexivity. }
  apply (run_registers_keeps_accounts newUid pa calls) in Hin.
  unfold register. rewrite He. simpl. unfold createUserWithEmailAndPassword.
  replace (existsb _ _) with true; [reflexivity|].
  symmetry. apply existsb_exists. eexists. split; [exact Hin|]. apply String.eqb_refl.
Qed.

Lemma register_email_taken_witness :
  match register sampleUid (fun _ => true) emptyAuth "ana@meditrack.local" "pw" "Ana" "Lee" Patient with
  | inr st' => register sampleUid (fun _ => true)
                 (run_registers sampleUid (fun _ => true) st'
                    [("bo@meditrack.local", "pw", "Bo", "Ray", Doctor)])
                 "ana@meditrack.local" "other" "Bo" "Ray" Doctor
               = inl AuthFailed
  | inl _ => False
  end.
Proof.
  destruct (register sampleUid (fun _ => true) emptyAuth "ana@meditrack.local" "pw" "Ana" "Lee"
              Patient) as [err|st'] eqn:Hr.
  - vm_compute in Hr. discriminate Hr.
  - exact (register_email_taken _ _ _ _ _ _ _ _ _ _ _ _ _ _ Hr).
Defined.

(* ------------------------------------------------------------------ *)
(** ** The prescription draft *)

Lemma shownToDoctor_intro duid (db : store) id allowed a :
  db !! id = Some a -> doctorId a = duid -> In (status_of a) allowed ->
  shownToDoctor duid db id allowed = true.
Proof.
  intros Ha Hd Hin. unfold shownToDoctor. rewrite Ha, Hd, String.eqb_refl.
  apply status_in_spec. exact Hin.
Qed.

(** 'Cancel' closes the prescription form but keeps what was typed, and
    'Add Prescription' on another in-progress visit reopens it with that
    draft: 'Complete Appointment' then stores the draft as that visit's
    prescription and resets the form; with a blank medicine the click
    changes neither the session nor the store. *)
Theorem prescription_draft_carries_over :
  forall (ds : doctorSession) (db : store) (id2 : string) (a2 : appointment),
    db !! id2 = Some a2 -> doctorId a2 = ds_uid ds -> status_of a2 = InProgress ->
    (exists ds1 ds2,
       doctorStep ds db ClickCancelForm = Some (ds1, db) /\
       doctorStep ds1 db (ClickAddPrescription id2) = Some (ds2, db) /\
       prescriptionData ds2 = prescriptionData ds /\
       (is_empty (trim (medicine (prescriptionData ds))) = false ->
        doctorStep ds2 db (ClickComplete id2) =
          Some ({| ds_uid := ds_uid ds; selectedAppointment := None;
                   prescriptionData := emptyPrescription |},
                <[id2 := set_completed_with (prescriptionData ds) a2]> db)) /\
       (is_empty (trim (medicine (prescriptionData ds))) = true ->
        doctorStep ds2 db (ClickComplete id2) = Some (ds2, db))).
Proof.
  intros ds db id2 a2 Ha Hd Hs.
  eexists. eexists. split; [reflexivity|]. split.
  { cbn [doctorStep ds_uid].
    rewrite (shownToDoctor_intro _ _ _ [InProgress] _ Ha Hd) by (rewrite Hs; left; reflexivity).
    reflexivity. }
  split; [reflexivity|].
  cbn [doctorStep ds_uid selectedAppointment prescriptionData opt_str_eqb].
  rewrite String.eqb_refl.
  rewrite (shownToDoctor_intro _ _ _ [Confirmed; InProgress] _ Ha Hd)
    by (rewrite Hs; right; left; reflexivity).
  cbn [andb]. unfold handlePrescriptionSubmit.
  split; intros He; rewrite He; [|reflexivity].
  unfold updateDoc. rewrite Ha. reflexivity.
Qed.

Lemma prescription_draft_carries_over_witness :
  exists ds1 ds2,
    doctorStep draftSession inProgressStore ClickCancelForm = Some (ds1, inProgressStore) /\
    doctorStep ds1 inProgressStore (ClickAddPrescription "a2") = Some (ds2, inProgressStore) /\
    prescriptionData ds2 = amoxicillin /\
    (is_empty (trim (medicine amoxicillin)) = false ->
     doctorStep ds2 inProgressStore (ClickComplete "a2") =
       Some ({| ds_uid := "d1"; selectedAppointment := None;
                prescriptionData := emptyPrescription |},
             <["a2" := set_completed_with amoxicillin
                         (mkAppointment "p1" "2025-06-02" InProgress None None)]> inProgressStore)) /\
    (is_empty (trim (medicine amoxicillin)) = true ->
     doctorStep ds2 inProgressStore (ClickComplete "a2") = Some (ds2, inProgressStore)).
Proof.
  apply (prescription_draft_carries_over draftSession inProgressStore "a2"
           (mkAppointment "p1" "2025-06-02" InProgress None None)); vm_compute; reflexivity.
Defined.
